(** * custom-vue-datepicker: the calendar selection engine and the menu
      positioning engine

    A shallow embedding of

    - [src/Vue3DatePicker/utils/composition/calendar.ts] ([useCalendar]), and
    - [src/VueDatePicker/components/composables/position.ts] ([usePosition]),

    followed by the properties the specification states about them.

    Conventions of the embedding.

    - A Vue [ref] is a field of an explicit state record; a handler is a
      function from the state before to the state after.
    - [emit] appends to a log kept in the state, so that "nothing was emitted"
      is an equation between logs.
    - A JavaScript exception and a call that hands a value of the wrong shape
      to a helper whose code is not in the sources are results of their own
      ([TypeError], [Unspecified]); a handler that finishes returns [Done].
    - JavaScript numbers are [Z] in the calendar (years, months, hours,
      minutes) and [Q] in the positioning code (pixel geometry may be
      fractional, and [width / 2] is computed); NaN and infinities are not
      represented. *)

From Stdlib Require Import String ZArith QArith Bool List Lia.
Import ListNotations.

(** ** Results of handlers *)

Module Outcome.

Inductive outcome (A : Type) : Type :=
| Done (a : A)
| TypeError
| Unspecified.

Arguments Done {A} a.
Arguments TypeError {A}.
Arguments Unspecified {A}.

Definition bind {A B : Type} (c : outcome A) (k : A -> outcome B) : outcome B :=
  match c with
  | Done a => k a
  | TypeError => TypeError
  | Unspecified => Unspecified
  end.

(** [undefined] reaching a helper that expects a value: outside the model. *)
Definition defined {A : Type} (o : option A) : outcome A :=
  match o with
  | Some a => Done a
  | None => Unspecified
  end.

End Outcome.

Import Outcome.

Declare Scope outcome_scope.
Delimit Scope outcome_scope with outcome.
Notation "x <- c ;; k" := (bind c (fun x => k))
  (at level 61, c at next level, right associativity) : outcome_scope.

(** ** The calendar selection engine *)

Module Calendar.

Open Scope Z_scope.
Open Scope outcome_scope.

(** A [Date] seen through the fields the date utilities read and write.
    Months are indices 0..11 as in JavaScript. *)
Record Date : Type := mkDate {
  dYear : Z;
  dMonth : Z;
  dDay : Z;
  dHours : Z;
  dMinutes : Z
}.

(** *** Date utilities ([../date-utils], not in the sources) *)

(** Modelled from the spec: [getDateYear] of [../date-utils] is missing; the
    spec lists "extract year/month/day/hour/minute from a Date". *)
Definition getDateYear (d : Date) : Z := dYear d.

(** Modelled from the spec: [getDateMonth] of [../date-utils] is missing;
    "extract year/month/day/hour/minute from a Date"; the result is the month
    index that [filters.months] lists. *)
Definition getDateMonth (d : Date) : Z := dMonth d.

(** Modelled from the spec: [getDateHours] of [../date-utils] is missing;
    "extract year/month/day/hour/minute from a Date". *)
Definition getDateHours (d : Date) : Z := dHours d.

(** Modelled from the spec: [getDateMinutes] of [../date-utils] is missing;
    "extract year/month/day/hour/minute from a Date". *)
Definition getDateMinutes (d : Date) : Z := dMinutes d.

(** The calendar day of a date, time of day dropped. *)
Definition dayKey (d : Date) : Z * Z * Z := (dYear d, dMonth d, dDay d).

Definition dayKey_ltb (a b : Z * Z * Z) : bool :=
  let '(ya, ma, da) := a in
  let '(yb, mb, db) := b in
  (ya <? yb) || ((ya =? yb) && ((ma <? mb) || ((ma =? mb) && (da <? db)))).

Definition dayKey_eqb (a b : Z * Z * Z) : bool :=
  let '(ya, ma, da) := a in
  let '(yb, mb, db) := b in
  (ya =? yb) && (ma =? mb) && (da =? db).

(** Modelled from the spec: [isDateBefore] of [../date-utils] is missing;
    "compare two dates (before/after/equal, exact-date granularity ...)": the
    comparison is between calendar days, which is what lets a calendar cell be
    compared with a stored value that carries a time of day. *)
Definition isDateBefore (date dateToCompare : Date) : bool :=
  dayKey_ltb (dayKey date) (dayKey dateToCompare).

(** Modelled from the spec: [isDateAfter] of [../date-utils] is missing;
    "compare two dates (before/after/equal, exact-date granularity ...)". *)
Definition isDateAfter (date dateToCompare : Date) : bool :=
  dayKey_ltb (dayKey dateToCompare) (dayKey date).

(** Modelled from the spec: [isDateEqual] of [../date-utils] is missing;
    "compare two dates (before/after/equal, exact-date granularity ...)";
    the disabled list is matched by "exact-date match". *)
Definition isDateEqual (date dateToCompare : Date) : bool :=
  dayKey_eqb (dayKey date) (dayKey dateToCompare).

(** Modelled from the spec: [setDateTime] of [../date-utils] is missing;
    "construct a new Date with time-of-day replaced".  The model covers an
    hour in 0..23 and a minute in 0..59, the values a time picker offers; it
    does not represent the carry a JavaScript Date performs outside them. *)
Definition setDateTime (date : Date) (hours minutes : Z) : Date :=
  mkDate (dYear date) (dMonth date) (dDay date) hours minutes.

(** Modelled from the spec: [setDateMonthOrYear] of [../date-utils] is
    missing; "construct a new Date with month/year replaced". *)
Definition setDateMonthOrYear (date : Date) (month year : Z) : Date :=
  mkDate year month (dDay date) (dHours date) (dMinutes date).

(** *** Values and type guards *)

(** [InternalModuleValue = Date | Date[] | null] *)
Inductive InternalModuleValue : Type :=
| MNull
| MDate (d : Date)
| MArr (l : list Date).

(** [number | number[]], the type of the [hours] and [minutes] refs. *)
Inductive TimeNum : Type :=
| Num (n : Z)
| NumArr (a : list Z).

(** [ITimeValue], after the unary [+] the code applies to its fields. *)
Record ITimeValue : Type := mkTime { tvHours : Z; tvMinutes : Z }.

(** [ITimeValue | ITimeValue[] | null], the type of [props.startTime]. *)
Inductive StartTime : Type :=
| STNone
| STOne (t : ITimeValue)
| STArr (l : list ITimeValue).

(** JavaScript truthiness of a model value: only [null] is falsy. *)
Definition truthy (v : InternalModuleValue) : bool :=
  match v with
  | MNull => false
  | _ => true
  end.

(** Modelled from the spec: [isModelValueRange] of [../type-guard] is
    missing.  The spec's [rangeActive] lets it accept a range whose first
    endpoint only is set, and [mapInternalModuleValues] tests the length
    after it: it is the array test. *)
Definition isModelValueRange (v : InternalModuleValue) : bool :=
  match v with
  | MArr _ => true
  | _ => false
  end.

(** Modelled from the spec: [isRange] of [../type-guard] is missing;
    "is this value a range pair". *)
Definition isRange (v : InternalModuleValue) : bool :=
  match v with
  | MArr l => (List.length l =? 2)%nat
  | _ => false
  end.

(** Modelled from the spec: [isNumberArray] of [../type-guard] is missing;
    "is this a number-pair". *)
Definition isNumberArray (v : TimeNum) : bool :=
  match v with
  | NumArr a => (List.length a =? 2)%nat
  | Num _ => false
  end.

(** Modelled from the spec: [isTimeArr] of [../type-guard] is missing;
    "is this a time-value pair". *)
Definition isTimeArr (v : StartTime) : bool :=
  match v with
  | STArr l => (List.length l =? 2)%nat
  | _ => false
  end.

(** *** JavaScript arrays and comparisons *)

(** [a[i]]; [None] is [undefined]. *)
Definition idx {A : Type} (a : list A) (i : nat) : option A := nth_error a i.

(** [a[i] = v].  Within the array the slot is replaced, at its end the array
    grows by one; an index further out would leave holes, which [list] does
    not represent ([None]). *)
Fixpoint arr_assign {A : Type} (a : list A) (i : nat) (v : A) : option (list A) :=
  match i, a with
  | O, [] => Some [v]
  | O, _ :: t => Some (v :: t)
  | S _, [] => None
  | S i', x :: t => option_map (cons x) (arr_assign t i' v)
  end.

(** [x < +a[i]] where a missing entry makes the right side NaN, so that the
    comparison is false. *)
Definition num_lt (x : Z) (y : option Z) : bool :=
  match y with
  | Some y' => x <? y'
  | None => false
  end.

Definition num_gt (x : Z) (y : option Z) : bool :=
  match y with
  | Some y' => y' <? x
  | None => false
  end.

(** *** Configuration, state, events *)

(** [ICalendarDay]; the optional [classData] style tags play no part here. *)
Record ICalendarDay : Type := mkDay {
  text : Z;
  value : Date;
  current : bool
}.

(** [IDateFilter]: only [months] is read by this file. *)
Record IDateFilter : Type := mkFilter { months : list Z }.

(** [CalendarProps], with the fields of [UseCalendar] in the interfaces
    file.  A bound or seed that is absent (or an empty string) is [None];
    date strings are taken as the dates they denote.
    [internalModelValue] belongs to the host and changes over time: it is a
    field of [State]. *)
Record CalendarProps : Type := mkProps {
  range : bool;
  startDate : option Date;
  startTime : StartTime;
  maxDate : option Date;
  minDate : option Date;
  filters : IDateFilter;
  yearRange : list Z;
  disabledDates : list Date;
  autoApply : bool;
  monthPicker : bool;
  timePicker : bool
}.

(** The two signals this file emits. *)
Inductive Event : Type :=
| EvUpdate (v : InternalModuleValue)   (* 'update:internalModelValue' *)
| EvAutoApply.                          (* 'autoApply' *)

Record State : Type := mkState {
  today : Date;
  hoveredDate : option Date;
  month : Z;
  year : Z;
  hours : TimeNum;
  minutes : TimeNum;
  internalModelValue : InternalModuleValue;   (* props.internalModelValue *)
  emitted : list Event
}.

Definition set_hoveredDate (v : option Date) (st : State) : State :=
  mkState (today st) v (month st) (year st) (hours st) (minutes st)
          (internalModelValue st) (emitted st).

Definition set_month (v : Z) (st : State) : State :=
  mkState (today st) (hoveredDate st) v (year st) (hours st) (minutes st)
          (internalModelValue st) (emitted st).

Definition set_year (v : Z) (st : State) : State :=
  mkState (today st) (hoveredDate st) (month st) v (hours st) (minutes st)
          (internalModelValue st) (emitted st).

Definition set_hours (v : TimeNum) (st : State) : State :=
  mkState (today st) (hoveredDate st) (month st) (year st) v (minutes st)
          (internalModelValue st) (emitted st).

Definition set_minutes (v : TimeNum) (st : State) : State :=
  mkState (today st) (hoveredDate st) (month st) (year st) (hours st) v
          (internalModelValue st) (emitted st).

Definition set_internalModelValue (v : InternalModuleValue) (st : State) : State :=
  mkState (today st) (hoveredDate st) (month st) (year st) (hours st) (minutes st)
          v (emitted st).

Definition emit (e : Event) (st : State) : State :=
  mkState (today st) (hoveredDate st) (month st) (year st) (hours st) (minutes st)
          (internalModelValue st) (emitted st ++ [e]).

(** The computed [modelValue]: the getter reads the prop, the setter only
    emits; the prop itself is written by the host ([hostSync] below). *)
Definition modelValue (st : State) : InternalModuleValue := internalModelValue st.

Definition set_modelValue (v : InternalModuleValue) (st : State) : State :=
  emit (EvUpdate v) st.

(** *** The composable *)

(** The refs as [useCalendar] creates them; [now] is what [new Date()] reads,
    and [getDateHours()] without argument reads the current time. *)
Definition useCalendar (p : CalendarProps) (now : Date) (v : InternalModuleValue) : State :=
  mkState now None (getDateMonth now) (getDateYear now)
          (if range p then NumArr [getDateHours now; getDateHours now]
           else Num (getDateHours now))
          (if range p then NumArr [getDateMinutes now; getDateMinutes now]
           else Num (getDateMinutes now))
          v [].

Definition assignStartTime (p : CalendarProps) (st : State) : outcome State :=
  if isTimeArr (startTime p) then
    match startTime p with
    | STArr l =>
        t0 <- defined (idx l 0) ;;
        t1 <- defined (idx l 1) ;;
        Done (set_minutes (NumArr [tvMinutes t0; tvMinutes t1])
                (set_hours (NumArr [tvHours t0; tvHours t1]) st))
    | _ => Unspecified
    end
  else
    match startTime p with
    | STOne t => Done (set_minutes (Num (tvMinutes t)) (set_hours (Num (tvHours t)) st))
    | _ => Unspecified
    end.

Definition isDisabled (p : CalendarProps) (date : Date) : bool :=
  let aboveMax :=
    match maxDate p with Some mx => isDateAfter date mx | None => false end in
  let bellowMin :=
    match minDate p with Some mn => isDateBefore date mn | None => false end in
  let inDisableArr :=
    existsb (fun disabledDate => isDateEqual disabledDate date) (disabledDates p) in
  let disabledMonths :=
    if (0 <? List.length (months (filters p)))%nat
    then map (fun month => month) (months (filters p)) else [] in
  let inDisabledMonths := existsb (Z.eqb (getDateMonth date)) disabledMonths in
  let dateYear := getDateYear date in
  let outOfYearRange :=
    num_lt dateYear (idx (yearRange p) 0) || num_gt dateYear (idx (yearRange p) 1) in
  aboveMax || bellowMin || inDisableArr || inDisabledMonths || outOfYearRange.

Definition assignMonthAndYear (date : Date) (st : State) : State :=
  set_year (getDateYear date) (set_month (getDateMonth date) st).

Definition mapInternalModuleValues (st : State) : State :=
  if truthy (modelValue st) then
    if isModelValueRange (modelValue st) then
      match modelValue st with
      | MArr [d0; d1] =>
          set_minutes (NumArr [getDateMinutes d0; getDateMinutes d1])
            (set_hours (NumArr [getDateHours d0; getDateHours d1])
               (assignMonthAndYear d0 st))
      | _ => st
      end
    else
      match modelValue st with
      | MDate d =>
          set_minutes (Num (getDateMinutes d))
            (set_hours (Num (getDateHours d)) (assignMonthAndYear d st))
      | _ => st
      end
  else st.

Definition onMounted (p : CalendarProps) (st : State) : outcome State :=
  let st1 := mapInternalModuleValues st in
  if negb (truthy (modelValue st1)) then
    let st2 :=
      match startDate p with
      | Some sd => set_year (getDateYear sd) (set_month (getDateMonth sd) st1)
      | None => st1
      end in
    match startTime p with
    | STNone => Done st2
    | _ => assignStartTime p st2
    end
  else Done st1.

Definition selectDate (p : CalendarProps) (st : State) (day : ICalendarDay) : outcome State :=
  if isDisabled p (value day) then Done st
  else if negb (range p) && negb (isNumberArray (hours st))
          && negb (isNumberArray (minutes st)) then
    match hours st, minutes st with
    | Num h, Num m =>
        let st1 := set_modelValue (MDate (setDateTime (value day) h m)) st in
        Done (if autoApply p then emit EvAutoApply st1 else st1)
    | _, _ => Unspecified
    end
  else if isNumberArray (hours st) && isNumberArray (minutes st) then
    match hours st, minutes st with
    | NumArr hs, NumArr ms =>
        rangeDate0 <-
          match modelValue st with
          | MNull => Done []
          | MArr l => Done l
          | MDate _ => TypeError            (* a Date has no [slice] *)
          end ;;
        let rangeDate1 := if (List.length rangeDate0 =? 2)%nat then [] else rangeDate0 in
        rangeDate2 <-
          match idx rangeDate1 0 with
          | None => defined (arr_assign rangeDate1 0 (value day))
          | Some r0 =>
              if isDateBefore (value day) r0
              then Done (value day :: rangeDate1)
              else defined (arr_assign rangeDate1 1 (value day))
          end ;;
        rangeDate3 <-
          match idx rangeDate2 0, idx rangeDate2 1 with
          | Some r0, None =>
              h0 <- defined (idx hs 0) ;;
              m0 <- defined (idx ms 0) ;;
              defined (arr_assign rangeDate2 0 (setDateTime r0 h0 m0))
          | Some r0, Some r1 =>
              h0 <- defined (idx hs 0) ;;
              m0 <- defined (idx ms 0) ;;
              a0 <- defined (arr_assign rangeDate2 0 (setDateTime r0 h0 m0)) ;;
              h1 <- defined (idx hs 1) ;;
              m1 <- defined (idx ms 1) ;;
              defined (arr_assign a0 1 (setDateTime r1 h1 m1))
          | None, _ => Unspecified
          end ;;
        let st1 := set_modelValue (MArr rangeDate3) st in
        Done (match idx rangeDate3 0, idx rangeDate3 1 with
              | Some _, Some _ => if autoApply p then emit EvAutoApply st1 else st1
              | _, _ => st1
              end)
    | _, _ => Unspecified
    end
  else Done st.

Definition setHoverDate (st : State) (day : ICalendarDay) : State :=
  set_hoveredDate (Some (value day)) st.

Definition updateMonthYear (p : CalendarProps) (now : Date) (st : State)
    (v : Z) (isMonth : bool) : outcome State :=
  let st1 := if isMonth then set_month v st else set_year v st in
  if monthPicker p then
    match modelValue st1 with
    | MNull => Done (set_modelValue (MDate (setDateMonthOrYear now (month st1) (year st1))) st1)
    | MDate d => Done (set_modelValue (MDate (setDateMonthOrYear d (month st1) (year st1))) st1)
    | MArr _ => Unspecified
    end
  else Done st1.

Definition handleTimeUpdate (p : CalendarProps) (st : State)
    (dateValue : InternalModuleValue) : outcome State :=
  if isRange dateValue && isNumberArray (hours st) && isNumberArray (minutes st) then
    match dateValue, hours st, minutes st with
    | MArr l, NumArr hs, NumArr ms =>
        d0 <- defined (idx l 0) ;;
        h0 <- defined (idx hs 0) ;;
        m0 <- defined (idx ms 0) ;;
        d1 <- defined (idx l 1) ;;
        h1 <- defined (idx hs 1) ;;
        m1 <- defined (idx ms 1) ;;
        Done (set_modelValue (MArr [setDateTime d0 h0 m0; setDateTime d1 h1 m1]) st)
    | _, _, _ => Unspecified
    end
  else if negb (range p) && negb (isRange dateValue) then
    match dateValue, hours st, minutes st with
    | MDate d, Num h, Num m => Done (set_modelValue (MDate (setDateTime d h m)) st)
    | _, _, _ => Unspecified
    end
  else Done st.

Definition updateTime (p : CalendarProps) (now : Date) (st : State)
    (v : TimeNum) (isHours : bool) : outcome State :=
  let st1 := if isHours then set_hours v st else set_minutes v st in
  if truthy (modelValue st1) then handleTimeUpdate p st1 (modelValue st1)
  else if timePicker p then
    handleTimeUpdate p st1 (if range p then MArr [now; now] else MDate now)
  else Done st1.

(** *** The host and the watcher *)

(** The last value the handler asked the host to store, if any. *)
Fixpoint lastUpdate (evs : list Event) : option InternalModuleValue :=
  match evs with
  | [] => None
  | e :: rest =>
      match lastUpdate rest with
      | Some v => Some v
      | None => match e with EvUpdate v => Some v | EvAutoApply => None end
      end
  end.

(** The value-sink contract: the host stores what the engine emitted since
    [before] in [props.internalModelValue], which makes
    [watch(modelValue, ...)] run [mapInternalModuleValues]. *)
Definition hostSync (before after : State) : State :=
  match lastUpdate (skipn (List.length (emitted before)) (emitted after)) with
  | Some v => mapInternalModuleValues (set_internalModelValue v after)
  | None => after
  end.

(** What the user and the host can do to a mounted engine. *)
Inductive Action : Type :=
| ASelectDate (day : ICalendarDay)
| ASetHoverDate (day : ICalendarDay)
| AUpdateMonthYear (now : Date) (v : Z) (isMonth : bool)
| AUpdateTime (now : Date) (v : TimeNum) (isHours : bool)
| AHostSet (v : InternalModuleValue).

Definition dispatch (p : CalendarProps) (st : State) (a : Action) : outcome State :=
  match a with
  | ASelectDate day => st' <- selectDate p st day ;; Done (hostSync st st')
  | ASetHoverDate day => Done (setHoverDate st day)
  | AUpdateMonthYear now v isMonth =>
      st' <- updateMonthYear p now st v isMonth ;; Done (hostSync st st')
  | AUpdateTime now v isHours =>
      st' <- updateTime p now st v isHours ;; Done (hostSync st st')
  | AHostSet v => Done (mapInternalModuleValues (set_internalModelValue v st))
  end.

Fixpoint run (p : CalendarProps) (st : State) (acts : list Action) : outcome State :=
  match acts with
  | [] => Done st
  | a :: rest => st' <- dispatch p st a ;; run p st' rest
  end.

(** The states the engine can be in: mounted, then any actions. *)
Inductive reachable (p : CalendarProps) : State -> Prop :=
| reach_mount now v st :
    onMounted p (useCalendar p now v) = Done st -> reachable p st
| reach_step st a st' :
    reachable p st -> dispatch p st a = Done st' -> reachable p st'.

(** *** Highlighting *)

(** Modelled from the spec: what [isDateEqual] of [../date-utils] answers
    when its second argument is [null] is not in the sources; "absent
    endpoints never match". *)
Definition isDateEqualOrNull (date : Date) (dateToCompare : option Date) : bool :=
  match dateToCompare with
  | Some d => isDateEqual date d
  | None => false
  end.

(** [isModelValueRange(v) && v[i] ? v[i] : null] *)
Definition endpointOrNull (v : InternalModuleValue) (i : nat) : option Date :=
  if isModelValueRange v then
    match v with
    | MArr l => idx l i
    | _ => None
    end
  else None.

Definition isActiveDate (p : CalendarProps) (st : State) (calendarDay : ICalendarDay)
  : outcome bool :=
  if negb (truthy (modelValue st)) then Done false
  else if negb (range p) then
    match modelValue st with
    | MDate d => Done (isDateEqual (value calendarDay) d)
    | _ => Unspecified                      (* an array cast to Date *)
    end
  else
    Done (isDateEqualOrNull (value calendarDay) (endpointOrNull (modelValue st) 0)
          || isDateEqualOrNull (value calendarDay) (endpointOrNull (modelValue st) 1)).

Definition rangeActive (st : State) (calendarDay : ICalendarDay) : bool :=
  match endpointOrNull (modelValue st) 0, endpointOrNull (modelValue st) 1 with
  | Some v0, Some v1 =>
      isDateAfter (value calendarDay) v0 && isDateBefore (value calendarDay) v1
  | _, _ =>
      match endpointOrNull (modelValue st) 0, hoveredDate st with
      | Some v0, Some hovered =>
          (isDateAfter (value calendarDay) v0 && isDateBefore (value calendarDay) hovered)
          || (isDateBefore (value calendarDay) v0 && isDateAfter (value calendarDay) hovered)
      | _, _ => false
      end
  end.

(** [string | number], the result of [getWeekDay]. *)
Inductive WeekDay : Type :=
| WeekText (s : string)
| WeekNumber (n : Z).

(** [getWeekNumber] of [../date-utils] is missing (the ISO week of a date):
    it is an argument here. *)
Definition getWeekDay (getWeekNumber : Date -> Z) (days : list ICalendarDay) : WeekDay :=
  match find (fun day => current day) days with
  | Some firstCurrentData => WeekNumber (getWeekNumber (value firstCurrentData))
  | None => WeekText ""
  end.


End Calendar.

(** ** The menu positioning engine *)

(** [enum OpenPosition] of the interfaces file. *)
Module OpenPosition.

Inductive t : Type := center | left | right.

Definition eqb (a b : t) : bool :=
  match a, b with
  | center, center | left, left | right, right => true
  | _, _ => false
  end.

End OpenPosition.

Module Position.

Open Scope Q_scope.

(** [a > b] and [a < b] on numbers. *)
Definition gtb (a b : Q) : bool := negb (Qle_bool a b).
Definition ltb (a b : Q) : bool := negb (Qle_bool b a).

(** What [getBoundingClientRect()] returns, in the fields this file reads. *)
Record DOMRect : Type := mkRect {
  rectLeft : Q;
  rectTop : Q;
  rectWidth : Q;
  rectHeight : Q;
  rectRight : Q
}.

(** An element with the layout properties this file reads; [offsetParent]
    is [None] for [null]. *)
#[warnings="-register-all"]
Inductive HTMLElement : Type :=
| mkEl (boundingClientRect : DOMRect)
       (offsetLeft offsetTop scrollLeft scrollTop : Q)
       (offsetParent : option HTMLElement).

Definition getBoundingClientRect (el : HTMLElement) : DOMRect :=
  match el with mkEl r _ _ _ _ _ => r end.

(** A CSS length written into the style descriptor: a literal, or the
    template literal [`${n}px`]. *)
Inductive CssValue : Type :=
| Raw (s : string)
| Px (n : Q).

Record MenuPosition : Type := mkMenuPosition {
  top : CssValue;
  left : CssValue;
  transform : string;
  position : option string
}.

(** [props.altPosition]: a boolean, or a function from the anchor (possibly
    [null]) to a style descriptor. *)
Inductive AltPosition : Type :=
| AltFlag (b : bool)
| AltFn (f : option HTMLElement -> MenuPosition).

(** Modelled from the spec: the declaration of [AllPropsType]
    ([@/utils/props]) is missing; these are the props this file reads, with
    the types its uses give them ("horizontal alignment (left, right,
    center)", "centered display mode", "custom positioning override
    function", "configured pixel offset", "inline mode", "automatic
    repositioning").  [offset] is [+props.offset]. *)
Record AllPropsType : Type := mkProps {
  propTeleportCenter : bool;            (* props.teleportCenter *)
  propPosition : OpenPosition.t;       (* props.position *)
  altPosition : AltPosition;
  offset : Q;
  inline : bool;
  autoPosition : bool
}.

(** What the handlers measure: the window, the document, and the two
    elements [unrefElement] finds behind [inputRef] and [menuRef].
    Modelled from the spec: [unrefElement] ([@/utils/util]) is missing; an
    anchor or panel "not yet mounted" is [None]. *)
Record Env : Type := mkEnv {
  scrollX : Q;
  scrollY : Q;
  innerHeight : Q;
  clientWidth : Q;                     (* document.documentElement.clientWidth *)
  inputRef : option HTMLElement;
  menuRef : option HTMLElement
}.

Record State : Type := mkState {
  menuPosition : MenuPosition;
  openOnTop : bool;
  emitted : list string
}.

Definition set_top (v : CssValue) (st : State) : State :=
  let m := menuPosition st in
  mkState (mkMenuPosition v (left m) (transform m) (position m))
          (openOnTop st) (emitted st).

Definition set_left (v : CssValue) (st : State) : State :=
  let m := menuPosition st in
  mkState (mkMenuPosition (top m) v (transform m) (position m))
          (openOnTop st) (emitted st).

Definition set_transform (v : string) (st : State) : State :=
  let m := menuPosition st in
  mkState (mkMenuPosition (top m) (left m) v (position m))
          (openOnTop st) (emitted st).

Definition set_position (v : string) (st : State) : State :=
  let m := menuPosition st in
  mkState (mkMenuPosition (top m) (left m) (transform m) (Some v))
          (openOnTop st) (emitted st).

Definition set_menuPosition (m : MenuPosition) (st : State) : State :=
  mkState m (openOnTop st) (emitted st).

Definition set_openOnTop (b : bool) (st : State) : State :=
  mkState (menuPosition st) b (emitted st).

Definition emit (e : string) (st : State) : State :=
  mkState (menuPosition st) (openOnTop st) (emitted st ++ [e]).

(** The refs as [usePosition] creates them. *)
Definition usePosition : State :=
  mkState (mkMenuPosition (Raw "0") (Raw "0") "none" None) false [].

Definition maxHeight : Q := 390.

Definition centered (props : AllPropsType) : bool := propTeleportCenter props.

Definition getOffset (env : Env) (el : HTMLElement) : Q * Q :=   (* (top, left) *)
  let rect := getBoundingClientRect el in
  (rectTop rect + scrollY env, rectLeft rect + scrollX env).

(** The [while] loop of [getOffsetAlt]: [el] runs up the offset parents. *)
Fixpoint getOffsetAlt_loop (rect : DOMRect) (el : HTMLElement) (x y : Q) : Q * Q :=
  match el with
  | mkEl _ oLeft _ sLeft sTop parent =>
      let x' := x + (oLeft - sLeft) in
      let y' := rectTop rect + sTop in
      match parent with
      | Some el' => getOffsetAlt_loop rect el' x' y'
      | None => (y', x')
      end
  end.

Definition getOffsetAlt (el : HTMLElement) : Q * Q :=             (* (top, left) *)
  getOffsetAlt_loop (getBoundingClientRect el) el 0 0.

Definition setPositionRight (left width : Q) (st : State) : State :=
  set_transform "translateX(-100%)" (set_left (Px (left + width)) st).

Definition setPositionLeft (left : Q) (st : State) : State :=
  set_transform "translateX(0)" (set_left (Px left) st).

Definition setPositioning (props : AllPropsType) (left width : Q) (st : State) : State :=
  let st1 :=
    if OpenPosition.eqb (propPosition props) OpenPosition.left
    then setPositionLeft left st else st in
  let st2 :=
    if OpenPosition.eqb (propPosition props) OpenPosition.right
    then setPositionRight left width st1 else st1 in
  if OpenPosition.eqb (propPosition props) OpenPosition.center
  then set_transform "translateX(-50%)" (set_left (Px (left + width / 2)) st2)
  else st2.

(** Truthiness of [props.altPosition]. *)
Definition altPosition_truthy (props : AllPropsType) : bool :=
  match altPosition props with
  | AltFlag b => b
  | AltFn _ => true
  end.

Definition setInitialPosition (env : Env) (props : AllPropsType) (st : State) : State :=
  match inputRef env with
  | Some inputEl =>
      let fullHeight := innerHeight env in
      let '(offset, left) :=
        if altPosition_truthy props then getOffsetAlt inputEl else getOffset env inputEl in
      let rect := getBoundingClientRect inputEl in
      let width := rectWidth rect in
      let top := rectTop rect in
      let height := rectHeight rect in
      let freeBottom := fullHeight - top - height in
      let st1 :=
        set_top (if gtb top freeBottom then Px (offset - maxHeight) else Px offset) st in
      setPositioning props left width st1
  | None => st
  end.

Definition teleportCenter (st : State) : State :=
  set_position "fixed"
    (set_transform "translate(-50%, -50%)"
       (set_top (Raw "50%") (set_left (Raw "50%") st))).

(** [setMenuPosition], with the call to [recalculatePosition] it may make
    passed in: [recalculatePosition] itself calls back with
    [recalculate = false], which never uses it. *)
Definition setMenuPosition_with (recalc : State -> State)
    (env : Env) (props : AllPropsType) (recalculate : bool) (st : State) : State :=
  if negb (inline props) then
    if centered props then teleportCenter st
    else
      let el := inputRef env in
      match altPosition props, el with
      | AltFn f, _ => set_menuPosition (f el) st
      | AltFlag _, Some e =>
          let rect := getBoundingClientRect e in
          let width := rectWidth rect in
          let height := rectHeight rect in
          let '(offs, left) :=
            if altPosition_truthy props then getOffsetAlt e else getOffset env e in
          let st1 := set_top (Px (height + offs + offset props)) st in
          let st2 := setPositioning props left width st1 in
          if recalculate && autoPosition props then recalc st2 else st2
      | AltFlag _, None => st
      end
  else st.

Definition positionTopBottom (env : Env) (props : AllPropsType)
    (height inputHeight freeSpaceBottom top offs : Q) (st : State) : State :=
  let menuHeight := height + inputHeight in
  if gtb menuHeight top && gtb menuHeight freeSpaceBottom then
    if ltb top freeSpaceBottom then
      set_openOnTop false (setMenuPosition_with (fun s => s) env props false st)
    else
      set_openOnTop true (set_top (Px (offs - height - offset props)) st)
  else
    if gtb menuHeight freeSpaceBottom then
      set_openOnTop true (set_top (Px (offs - height - offset props)) st)
    else
      set_openOnTop false (setMenuPosition_with (fun s => s) env props false st).

Definition recalculatePosition (env : Env) (props : AllPropsType) (st : State) : State :=
  let st' :=
    match inputRef env with
    | Some el =>
        if autoPosition props && negb (inline props) then
          let rect := getBoundingClientRect el in
          let inputHeight := rectHeight rect in
          let top := rectTop rect in
          let width := rectWidth rect in
          let '(offs, inputLeft) :=
            if altPosition_truthy props then getOffsetAlt el else getOffset env el in
          let fullHeight := innerHeight env in
          let freeSpaceBottom := fullHeight - top - inputHeight in
          match menuRef env with
          | Some menuEl =>
              let mrect := getBoundingClientRect menuEl in
              let st1 :=
                positionTopBottom env props (rectHeight mrect) inputHeight
                                  freeSpaceBottom top offs st in
              if ltb (rectLeft mrect) 0 then setPositionLeft inputLeft st1
              else if gtb (rectRight mrect) (clientWidth env)
                   then setPositionRight inputLeft width st1
                   else st1
          | None => st
          end
        else st
    | None => st
    end in
  emit "recalculate-position" st'.

Definition setMenuPosition (env : Env) (props : AllPropsType)
    (recalculate : bool) (st : State) : State :=
  setMenuPosition_with (recalculatePosition env props) env props recalculate st.

End Position.

(** ** Properties of the calendar selection engine *)

Module CalendarSpec.

Import Calendar.
Open Scope Z_scope.

(** *** Calendar days *)

Lemma dayKey_ltb_lex (a b : Z * Z * Z) :
  dayKey_ltb a b = true <->
  let '(ya, ma, da) := a in
  let '(yb, mb, db) := b in
  ya < yb \/ (ya = yb /\ (ma < mb \/ (ma = mb /\ da < db))).
Proof.
  destruct a as [[ya ma] da], b as [[yb mb] db]; unfold dayKey_ltb.
  rewrite orb_true_iff, andb_true_iff, orb_true_iff, andb_true_iff.
  rewrite !Z.ltb_lt, !Z.eqb_eq. tauto.
Qed.

Lemma dayKey_ltb_asym (a b : Z * Z * Z) :
  dayKey_ltb a b = true -> dayKey_ltb b a = false.
Proof.
  intros H. destruct (dayKey_ltb b a) eqn:E; [|reflexivity].
  apply dayKey_ltb_lex in H. apply dayKey_ltb_lex in E.
  destruct a as [[ya ma] da], b as [[yb mb] db]. lia.
Qed.

Lemma dayKey_eqb_eq (a b : Z * Z * Z) : dayKey_eqb a b = true <-> a = b.
Proof.
  destruct a as [[ya ma] da], b as [[yb mb] db]; unfold dayKey_eqb.
  rewrite !andb_true_iff, !Z.eqb_eq. split.
  - intros [[-> ->] ->]. reflexivity.
  - intros H; inversion H; auto.
Qed.

Lemma dayKey_ltb_total (a b : Z * Z * Z) :
  dayKey_ltb b a = false -> dayKey_eqb a b = false -> dayKey_ltb a b = true.
Proof.
  intros H1 H2. apply dayKey_ltb_lex.
  assert (N1 : ~ (dayKey_ltb b a = true)) by congruence.
  assert (N2 : ~ (dayKey_eqb a b = true)) by congruence.
  rewrite dayKey_ltb_lex in N1. rewrite dayKey_eqb_eq in N2.
  destruct a as [[ya ma] da], b as [[yb mb] db].
  assert (N3 : ~ (ya = yb /\ ma = mb /\ da = db)).
  { intros (-> & -> & ->). now apply N2. }
  lia.
Qed.

Lemma setDateTime_dayKey (d : Date) (h m : Z) : dayKey (setDateTime d h m) = dayKey d.
Proof. reflexivity. Qed.

Lemma isDateBefore_setDateTime_r (d e : Date) (h m : Z) :
  isDateBefore d (setDateTime e h m) = isDateBefore d e.
Proof. reflexivity. Qed.

Lemma isDateEqual_iff (a b : Date) : isDateEqual a b = true <-> dayKey a = dayKey b.
Proof. unfold isDateEqual. apply dayKey_eqb_eq. Qed.

(** *** Disabled days *)

(** The five conditions of [isDisabled], as propositions. *)
Definition afterMax (p : CalendarProps) (date : Date) : Prop :=
  exists mx, maxDate p = Some mx /\ isDateAfter date mx = true.

Definition beforeMin (p : CalendarProps) (date : Date) : Prop :=
  exists mn, minDate p = Some mn /\ isDateBefore date mn = true.

Definition inDisabledList (p : CalendarProps) (date : Date) : Prop :=
  exists dd, In dd (disabledDates p) /\ isDateEqual dd date = true.

Definition inFilteredMonth (p : CalendarProps) (date : Date) : Prop :=
  In (getDateMonth date) (months (filters p)).

Definition outsideYearRange (p : CalendarProps) (date : Date) : Prop :=
  (exists lo, idx (yearRange p) 0 = Some lo /\ getDateYear date < lo) \/
  (exists hi, idx (yearRange p) 1 = Some hi /\ hi < getDateYear date).

Lemma num_lt_iff (x : Z) (y : option Z) :
  num_lt x y = true <-> exists y', y = Some y' /\ x < y'.
Proof.
  destruct y as [y'|]; simpl.
  - rewrite Z.ltb_lt. split; [eauto | intros (z & [= <-] & H); exact H].
  - split; [discriminate | intros (z & [=] & _)].
Qed.

Lemma num_gt_iff (x : Z) (y : option Z) :
  num_gt x y = true <-> exists y', y = Some y' /\ y' < x.
Proof.
  destruct y as [y'|]; simpl.
  - rewrite Z.ltb_lt. split; [eauto | intros (z & [= <-] & H); exact H].
  - split; [discriminate | intros (z & [=] & _)].
Qed.

Lemma disabledMonths_includes (ms : list Z) (m : Z) :
  existsb (Z.eqb m)
    (if (0 <? List.length ms)%nat then map (fun month => month) ms else []) = true
  <-> In m ms.
Proof.
  rewrite map_id.
  destruct ms as [|x ms'].
  - simpl. split; [discriminate | tauto].
  - cbn [List.length Nat.ltb Nat.leb].
    rewrite existsb_exists. split.
    + intros (y & Hin & Heq). apply Z.eqb_eq in Heq. now subst.
    + intros Hin. exists m. split; [exact Hin | apply Z.eqb_refl].
Qed.

(** C2.  [isDisabled date] is true exactly when at least one of five
    conditions holds: the date is after the configured max date, before the
    configured min date, equal (as a calendar date) to an entry of the
    disabled list, in an excluded month, or in a year outside the configured
    inclusive range.  A bound that is absent, an empty list and a missing
    year-range entry contribute nothing: with all of them absent no date is
    disabled. *)
Theorem isDisabled_iff_five_conditions (p : CalendarProps) (date : Date) :
  (isDisabled p date = true <->
     afterMax p date \/ beforeMin p date \/ inDisabledList p date \/
     inFilteredMonth p date \/ outsideYearRange p date)
  /\ (maxDate p = None -> ~ afterMax p date)
  /\ (minDate p = None -> ~ beforeMin p date)
  /\ (disabledDates p = [] -> ~ inDisabledList p date)
  /\ (months (filters p) = [] -> ~ inFilteredMonth p date)
  /\ (yearRange p = [] -> ~ outsideYearRange p date).
Proof.
  split; [|repeat split].
  - unfold isDisabled, afterMax, beforeMin, inDisabledList, inFilteredMonth,
      outsideYearRange.
    rewrite !orb_true_iff, disabledMonths_includes, existsb_exists,
      num_lt_iff, num_gt_iff.
    split.
    + intros [[[[H|H]|H]|H]|[H|H]]; try tauto.
      * destruct (maxDate p) as [mx|]; [|discriminate]. left; eauto.
      * destruct (minDate p) as [mn|]; [|discriminate]. right; left; eauto.
    + intros [(mx & E & H)|[(mn & E & H)|[H|[H|[H|H]]]]]; try tauto.
      * rewrite E. tauto.
      * rewrite E. tauto.
  - intros E (mx & E' & _). congruence.
  - intros E (mn & E' & _). congruence.
  - intros E (dd & Hin & _). rewrite E in Hin. destruct Hin.
  - intros E Hin. unfold inFilteredMonth in Hin. rewrite E in Hin. destruct Hin.
  - intros E [(lo & E' & _)|(hi & E' & _)]; rewrite E in E'; discriminate.
Qed.

(** Each of the five conditions disables a day on its own. *)
Definition openProps : CalendarProps :=
  mkProps true None STNone None None (mkFilter []) [1900; 2100] [] true false false.

Definition day_2024_03_05 : Date := mkDate 2024 2 5 10 0.

Example isDisabled_none : isDisabled openProps day_2024_03_05 = false.
Proof. reflexivity. Qed.

Example isDisabled_only_max :
  isDisabled (mkProps true None STNone (Some (mkDate 2024 2 4 0 0)) None
                (mkFilter []) [1900; 2100] [] true false false)
             day_2024_03_05 = true.
Proof. reflexivity. Qed.

Example isDisabled_only_min :
  isDisabled (mkProps true None STNone None (Some (mkDate 2024 2 6 0 0))
                (mkFilter []) [1900; 2100] [] true false false)
             day_2024_03_05 = true.
Proof. reflexivity. Qed.

Example isDisabled_only_list :
  isDisabled (mkProps true None STNone None None
                (mkFilter []) [1900; 2100] [mkDate 2024 2 5 0 0] true false false)
             day_2024_03_05 = true.
Proof. reflexivity. Qed.

Example isDisabled_only_month :
  isDisabled (mkProps true None STNone None None
                (mkFilter [2]) [1900; 2100] [] true false false)
             day_2024_03_05 = true.
Proof. reflexivity. Qed.

Example isDisabled_only_year :
  isDisabled (mkProps true None STNone None None
                (mkFilter []) [1900; 2023] [] true false false)
             day_2024_03_05 = true.
Proof. reflexivity. Qed.


(** *** Clicking a day *)

(** The state carries a pair of hours and a pair of minutes (range mode). *)
Definition pairTimes (st : State) (h0 h1 m0 m1 : Z) : Prop :=
  hours st = NumArr [h0; h1] /\ minutes st = NumArr [m0; m1].

(** The number of endpoints a model value holds. *)
Definition endpoints (v : InternalModuleValue) : nat :=
  match v with
  | MArr l => List.length l
  | _ => 0%nat
  end.

Lemma hostSync_same (st : State) : hostSync st st = st.
Proof. unfold hostSync. now rewrite skipn_all. Qed.

Lemma lastUpdate_app (evs : list Event) (e : Event) :
  lastUpdate (evs ++ [e]) =
  match e with
  | EvUpdate v => Some v
  | EvAutoApply => lastUpdate evs
  end.
Proof.
  induction evs as [|x evs IH]; simpl.
  - now destruct e.
  - rewrite IH. destruct e; [reflexivity|]. reflexivity.
Qed.

Lemma skipn_emitted_app (l new : list Event) :
  skipn (List.length l) (l ++ new) = new.
Proof. induction l; simpl; auto. Qed.

(** What the host stores after a handler that emitted one update [v]
    (possibly followed by 'autoApply'). *)
Lemma hostSync_emit_update (st : State) (v : InternalModuleValue) :
  hostSync st (emit (EvUpdate v) st) =
  mapInternalModuleValues (set_internalModelValue v (emit (EvUpdate v) st)).
Proof.
  unfold hostSync, emit; simpl. now rewrite skipn_emitted_app.
Qed.

Lemma hostSync_emit_update_autoApply (st : State) (v : InternalModuleValue) :
  hostSync st (emit EvAutoApply (emit (EvUpdate v) st)) =
  mapInternalModuleValues
    (set_internalModelValue v (emit EvAutoApply (emit (EvUpdate v) st))).
Proof.
  unfold hostSync, emit; simpl. rewrite <- app_assoc. now rewrite skipn_emitted_app.
Qed.

(** C5.  A click on a day that [isDisabled] rejects does nothing: the
    handler returns the state it was given, so no value is written, nothing is
    emitted, and month, year, hours, minutes and the hovered date are what
    they were; the host has nothing to store either. *)
Theorem selectDate_disabled_noop (p : CalendarProps) (st : State) (day : ICalendarDay) :
  isDisabled p (value day) = true ->
  selectDate p st day = Done st /\ dispatch p st (ASelectDate day) = Done st.
Proof.
  intros H. unfold dispatch, selectDate. rewrite H. simpl.
  now rewrite hostSync_same.
Qed.

Definition closedProps : CalendarProps :=
  mkProps true None STNone (Some (mkDate 2024 0 31 0 0)) None
          (mkFilter []) [1900; 2100] [] true false false.

Definition rangeState : State :=
  mkState (mkDate 2024 0 1 9 30) None 0 2024 (NumArr [9; 17]) (NumArr [30; 45]) MNull [].

Lemma selectDate_disabled_noop_witness :
  isDisabled closedProps (value (mkDay 5 day_2024_03_05 true)) = true /\
  selectDate closedProps rangeState (mkDay 5 day_2024_03_05 true) = Done rangeState /\
  dispatch closedProps rangeState (ASelectDate (mkDay 5 day_2024_03_05 true))
    = Done rangeState.
Proof.
  split; [reflexivity|].
  apply (selectDate_disabled_noop closedProps rangeState (mkDay 5 day_2024_03_05 true)).
  reflexivity.
Defined.

(** No endpoint is waiting for its partner: nothing is stored, or a range
    that is empty or complete. *)
Definition noPendingEndpoint (v : InternalModuleValue) : Prop :=
  v = MNull \/ v = MArr [] \/ exists a b, v = MArr [a; b].

(** 'autoApply' is emitted when it is configured. *)
Definition autoApplied (p : CalendarProps) (st : State) : State :=
  if autoApply p then emit EvAutoApply st else st.

Lemma mapInternalModuleValues_value (st : State) :
  internalModelValue (mapInternalModuleValues st) = internalModelValue st.
Proof.
  destruct st as [t hv mo ye hs ms v evs].
  unfold mapInternalModuleValues, modelValue; simpl.
  destruct v as [|d|[|d0 [|d1 [|d2 l]]]]; reflexivity.
Qed.

Lemma mapInternalModuleValues_emitted (st : State) :
  emitted (mapInternalModuleValues st) = emitted st.
Proof.
  destruct st as [t hv mo ye hs ms v evs].
  unfold mapInternalModuleValues, modelValue; simpl.
  destruct v as [|d|[|d0 [|d1 [|d2 l]]]]; reflexivity.
Qed.

(** The first click of a selection: the clicked day becomes the only
    endpoint. *)
Lemma selectDate_first_endpoint
    (p : CalendarProps) (st : State) (day : ICalendarDay) (h0 h1 m0 m1 : Z) :
  pairTimes st h0 h1 m0 m1 ->
  noPendingEndpoint (modelValue st) ->
  isDisabled p (value day) = false ->
  selectDate p st day
    = Done (emit (EvUpdate (MArr [setDateTime (value day) h0 m0])) st).
Proof.
  intros [Hh Hm] Hv Hd.
  unfold selectDate. rewrite Hd, Hh, Hm. simpl. rewrite andb_false_r. simpl.
  destruct Hv as [-> | [-> | (a & b & ->)]]; reflexivity.
Qed.

(** The second click: the clicked day goes before the waiting endpoint when
    it is an earlier day and after it otherwise; the first hour and minute go
    to the first position, the second to the second. *)
Lemma selectDate_second_endpoint
    (p : CalendarProps) (st : State) (day : ICalendarDay) (r0 : Date)
    (h0 h1 m0 m1 : Z) :
  pairTimes st h0 h1 m0 m1 ->
  modelValue st = MArr [r0] ->
  isDisabled p (value day) = false ->
  selectDate p st day
    = Done (autoApplied p
              (emit (EvUpdate
                       (MArr (if isDateBefore (value day) r0
                              then [setDateTime (value day) h0 m0; setDateTime r0 h1 m1]
                              else [setDateTime r0 h0 m0; setDateTime (value day) h1 m1])))
                    st)).
Proof.
  intros [Hh Hm] Hv Hd.
  unfold selectDate. rewrite Hd, Hh, Hm, Hv. simpl. rewrite andb_false_r. simpl.
  destruct (isDateBefore (value day) r0); reflexivity.
Qed.

Lemma dispatch_selectDate_update
    (p : CalendarProps) (st : State) (day : ICalendarDay) (v : InternalModuleValue) :
  selectDate p st day = Done (emit (EvUpdate v) st) ->
  dispatch p st (ASelectDate day)
    = Done (mapInternalModuleValues (set_internalModelValue v (emit (EvUpdate v) st))).
Proof.
  intros E. unfold dispatch. rewrite E. simpl. now rewrite hostSync_emit_update.
Qed.

Lemma dispatch_selectDate_update_autoApplied
    (p : CalendarProps) (st : State) (day : ICalendarDay) (v : InternalModuleValue) :
  selectDate p st day = Done (autoApplied p (emit (EvUpdate v) st)) ->
  dispatch p st (ASelectDate day)
    = Done (mapInternalModuleValues
              (set_internalModelValue v (autoApplied p (emit (EvUpdate v) st)))).
Proof.
  intros E. unfold dispatch. rewrite E. simpl. unfold autoApplied.
  destruct (autoApply p).
  - now rewrite hostSync_emit_update_autoApply.
  - now rewrite hostSync_emit_update.
Qed.

(** C3.  With a complete range [a; b] stored, a click on a day that is not
    disabled writes a range whose only endpoint is the clicked day (carrying
    the first hour and minute); [a] and [b] are gone. *)
Theorem selectDate_restarts_complete_range
    (p : CalendarProps) (st : State) (day : ICalendarDay) (a b : Date)
    (h0 h1 m0 m1 : Z) :
  pairTimes st h0 h1 m0 m1 ->
  modelValue st = MArr [a; b] ->
  isDisabled p (value day) = false ->
  let v := MArr [setDateTime (value day) h0 m0] in
  selectDate p st day = Done (emit (EvUpdate v) st) /\
  dispatch p st (ASelectDate day)
    = Done (set_internalModelValue v (emit (EvUpdate v) st)).
Proof.
  intros Ht Hv Hd v.
  assert (E : selectDate p st day = Done (emit (EvUpdate v) st)).
  { apply (selectDate_first_endpoint p st day h0 h1 m0 m1 Ht); [|exact Hd].
    right; right; eauto. }
  split; [exact E|].
  now rewrite (dispatch_selectDate_update p st day v E).
Qed.

Definition jan (d : Z) : Date := mkDate 2024 0 d 0 0.
Definition cell (d : Date) : ICalendarDay := mkDay (dDay d) d true.

Definition completeState : State :=
  mkState (mkDate 2024 0 1 9 30) None 0 2024 (NumArr [9; 17]) (NumArr [30; 45])
          (MArr [mkDate 2024 0 5 9 30; mkDate 2024 0 10 17 45]) [].

Lemma selectDate_restarts_complete_range_witness :
  let v := MArr [mkDate 2024 0 20 9 30] in
  selectDate openProps completeState (cell (jan 20))
    = Done (emit (EvUpdate v) completeState) /\
  dispatch openProps completeState (ASelectDate (cell (jan 20)))
    = Done (set_internalModelValue v (emit (EvUpdate v) completeState)).
Proof.
  apply (selectDate_restarts_complete_range openProps completeState (cell (jan 20))
           (mkDate 2024 0 5 9 30) (mkDate 2024 0 10 17 45) 9 17 30 45).
  - split; reflexivity.
  - reflexivity.
  - reflexivity.
Defined.


(** C4.  With auto-apply configured, a click on a day that is not disabled
    emits 'autoApply' (once, after the update) exactly when the range it
    writes has both endpoints, which is exactly when one endpoint was waiting;
    a click that leaves a single endpoint emits the update alone. *)
Theorem selectDate_autoApply_on_second_endpoint
    (p : CalendarProps) (st : State) (day : ICalendarDay) (h0 h1 m0 m1 : Z) :
  autoApply p = true ->
  pairTimes st h0 h1 m0 m1 ->
  isDisabled p (value day) = false ->
  noPendingEndpoint (modelValue st) \/ (exists r0, modelValue st = MArr [r0]) ->
  exists l st',
    selectDate p st day = Done st' /\
    emitted st' =
      emitted st ++ EvUpdate (MArr l)
                 :: (if (List.length l =? 2)%nat then [EvAutoApply] else []) /\
    (List.length l = 2%nat <-> endpoints (modelValue st) = 1%nat) /\
    (List.length l = 1%nat <-> endpoints (modelValue st) <> 1%nat).
Proof.
  intros Ha Ht Hd [Hv | (r0 & Hv)].
  - exists [setDateTime (value day) h0 m0]. eexists.
    split; [apply (selectDate_first_endpoint p st day h0 h1 m0 m1 Ht Hv Hd)|].
    split; [reflexivity|].
    destruct Hv as [-> | [-> | (a & b & ->)]]; simpl; split; split;
      congruence || discriminate || reflexivity.
  - pose proof (selectDate_second_endpoint p st day r0 h0 h1 m0 m1 Ht Hv Hd) as E.
    unfold autoApplied in E. rewrite Ha in E.
    exists (if isDateBefore (value day) r0
            then [setDateTime (value day) h0 m0; setDateTime r0 h1 m1]
            else [setDateTime r0 h0 m0; setDateTime (value day) h1 m1]).
    eexists. split; [exact E|].
    rewrite Hv. simpl. rewrite <- app_assoc. simpl.
    destruct (isDateBefore (value day) r0); simpl;
      (split; [reflexivity|]); split; split; congruence || reflexivity.
Qed.

(** Jan 10 (one endpoint: the update alone), then Jan 5 (the update and
    'autoApply'). *)
Lemma selectDate_autoApply_on_second_endpoint_witness :
  (exists l st',
     selectDate openProps rangeState (cell (jan 10)) = Done st' /\
     emitted st' = [] ++ EvUpdate (MArr l) :: (if (List.length l =? 2)%nat then [EvAutoApply] else []) /\
     (List.length l = 2%nat <-> 0%nat = 1%nat) /\
     (List.length l = 1%nat <-> 0%nat <> 1%nat)).
Proof.
  apply (selectDate_autoApply_on_second_endpoint openProps rangeState
           (cell (jan 10)) 9 17 30 45).
  - reflexivity.
  - split; reflexivity.
  - reflexivity.
  - left; left; reflexivity.
Defined.

Example autoApply_first_then_second :
  exists st1 st2,
    dispatch openProps rangeState (ASelectDate (cell (jan 10))) = Done st1 /\
    emitted st1 = [EvUpdate (MArr [mkDate 2024 0 10 9 30])] /\
    dispatch openProps st1 (ASelectDate (cell (jan 5))) = Done st2 /\
    emitted st2 =
      [EvUpdate (MArr [mkDate 2024 0 10 9 30]);
       EvUpdate (MArr [mkDate 2024 0 5 9 30; mkDate 2024 0 10 17 45]);
       EvAutoApply].
Proof. eexists; eexists. repeat split; reflexivity. Qed.

(** C10.  Which branch of [selectDate] runs follows the shape of [hours] and
    [minutes], not the range flag.  With the flag set and a scalar in either of
    them the click does nothing at all; with the flag unset and pairs in both,
    the click inserts into the range as in range mode (and throws when the
    stored value is a single Date, which has no [slice]). *)
Theorem selectDate_branch_follows_time_shape
    (p : CalendarProps) (st : State) (day : ICalendarDay) :
  (range p = true ->
   (exists n, hours st = Num n) \/ (exists n, minutes st = Num n) ->
   selectDate p st day = Done st /\ dispatch p st (ASelectDate day) = Done st)
  /\
  (range p = false ->
   forall h0 h1 m0 m1,
   pairTimes st h0 h1 m0 m1 ->
   isDisabled p (value day) = false ->
   (noPendingEndpoint (modelValue st) ->
    selectDate p st day
      = Done (emit (EvUpdate (MArr [setDateTime (value day) h0 m0])) st)) /\
   (forall r0, modelValue st = MArr [r0] ->
    selectDate p st day
      = Done (autoApplied p
                (emit (EvUpdate
                         (MArr (if isDateBefore (value day) r0
                                then [setDateTime (value day) h0 m0; setDateTime r0 h1 m1]
                                else [setDateTime r0 h0 m0; setDateTime (value day) h1 m1])))
                      st))) /\
   (forall d, modelValue st = MDate d -> selectDate p st day = TypeError)).
Proof.
  split.
  - intros Hr Hs.
    assert (E : selectDate p st day = Done st).
    { unfold selectDate. rewrite Hr.
      destruct (isDisabled p (value day)); [reflexivity|]. simpl.
      destruct Hs as [(n & ->) | (n & ->)]; simpl; [reflexivity|].
      now rewrite andb_false_r. }
    split; [exact E|]. unfold dispatch. rewrite E. simpl. now rewrite hostSync_same.
  - intros Hr h0 h1 m0 m1 Ht Hd. repeat split.
    + intros Hv. now apply (selectDate_first_endpoint p st day h0 h1 m0 m1).
    + intros r0 Hv. now apply selectDate_second_endpoint.
    + intros d Hv. destruct Ht as [Hh Hm].
      unfold selectDate. rewrite Hd, Hr, Hh, Hm, Hv. reflexivity.
Qed.

Definition singleProps : CalendarProps :=
  mkProps false None STNone None None (mkFilter []) [1900; 2100] [] true false false.

Definition scalarState : State :=
  mkState (mkDate 2024 0 1 9 30) None 0 2024 (Num 9) (Num 30) MNull [].

Lemma selectDate_branch_follows_time_shape_witness :
  (selectDate openProps scalarState (cell (jan 10)) = Done scalarState /\
   dispatch openProps scalarState (ASelectDate (cell (jan 10))) = Done scalarState)
  /\
  selectDate singleProps rangeState (cell (jan 10))
    = Done (emit (EvUpdate (MArr [mkDate 2024 0 10 9 30])) rangeState).
Proof.
  pose proof (selectDate_branch_follows_time_shape openProps scalarState (cell (jan 10))) as A.
  pose proof (selectDate_branch_follows_time_shape singleProps rangeState (cell (jan 10))) as B.
  split.
  - apply (proj1 A); [reflexivity | left; exists 9; reflexivity].
  - apply (proj2 B eq_refl 9 17 30 45); [split; reflexivity | reflexivity | left; reflexivity].
Defined.


(** *** Changing the time *)

Definition hourOk (h : Z) : Prop := 0 <= h < 24.
Definition minuteOk (m : Z) : Prop := 0 <= m < 60.

(** Every entry of an hours (or minutes) value is one a clock shows. *)
Definition timeOk (isHours : bool) (v : TimeNum) : Prop :=
  match v with
  | Num n => if isHours then hourOk n else minuteOk n
  | NumArr a => Forall (if isHours then hourOk else minuteOk) a
  end.

(** Same year, month and day. *)
Definition sameDay (a b : Date) : Prop :=
  dYear a = dYear b /\ dMonth a = dMonth b /\ dDay a = dDay b.

(** Same shape, and the same calendar day at every position. *)
Definition sameDays (v v' : InternalModuleValue) : Prop :=
  match v, v' with
  | MNull, MNull => True
  | MDate a, MDate b => sameDay a b
  | MArr l, MArr l' => Forall2 sameDay l l'
  | _, _ => False
  end.

Lemma sameDay_refl (a : Date) : sameDay a a.
Proof. repeat split. Qed.

Lemma sameDay_setDateTime (a : Date) (h m : Z) : sameDay a (setDateTime a h m).
Proof. repeat split. Qed.

Lemma sameDays_refl (v : InternalModuleValue) : sameDays v v.
Proof.
  destruct v as [|d|l]; simpl; auto using sameDay_refl.
  induction l; constructor; auto using sameDay_refl.
Qed.

(** [handleTimeUpdate] either leaves the state alone or emits one update
    that differs from its argument in hours and minutes only: a pair of dates
    when the times are pairs, a date outside range mode. *)
Lemma handleTimeUpdate_cases
    (p : CalendarProps) (st st' : State) (dateValue : InternalModuleValue) :
  handleTimeUpdate p st dateValue = Done st' ->
  st' = st \/
  (exists v, st' = emit (EvUpdate v) st /\ sameDays dateValue v /\
     ((exists l, v = MArr l /\ isNumberArray (hours st) = true) \/
      (exists d, v = MDate d /\ range p = false))).
Proof.
  unfold handleTimeUpdate.
  destruct (isRange dateValue && isNumberArray (hours st) && isNumberArray (minutes st))
    eqn:E1.
  - destruct dateValue as [|d|[|d0 [|d1 [|d2 l]]]]; simpl in E1; try discriminate.
    destruct (hours st) as [h|[|x0 [|x1 [|x2 hs]]]]; simpl in E1; try discriminate.
    destruct (minutes st) as [m|[|y0 [|y1 [|y2 ms]]]]; simpl in E1; try discriminate.
    simpl. intros [= <-]. right. eexists. split; [reflexivity|].
    split; [simpl; repeat constructor|]. left. eexists. split; reflexivity.
  - destruct (negb (range p) && negb (isRange dateValue)) eqn:E2.
    + destruct dateValue as [|d|l]; [intros [=]| |intros [=]].
      destruct (hours st) as [h|hs]; [|intros [=]].
      destruct (minutes st) as [m|ms]; [|intros [=]].
      intros [= <-]. right. eexists. split; [reflexivity|].
      split; [simpl; repeat split|]. right. eexists. split; [reflexivity|].
      apply andb_true_iff in E2. destruct E2 as [E2 _].
      now apply negb_true_iff in E2.
    + intros [= <-]. now left.
Qed.

Lemma hostSync_emit_update_from (st st1 : State) (v : InternalModuleValue) :
  emitted st1 = emitted st ->
  hostSync st (emit (EvUpdate v) st1) =
  mapInternalModuleValues (set_internalModelValue v (emit (EvUpdate v) st1)).
Proof.
  intros E. unfold hostSync, emit; simpl. rewrite E. now rewrite skipn_emitted_app.
Qed.

Lemma hostSync_quiet (st st1 : State) :
  emitted st1 = emitted st -> hostSync st st1 = st1.
Proof. intros E. unfold hostSync. rewrite E. now rewrite skipn_all. Qed.

(** C6, amended.  [updateTime] on an existing value changes hours and
    minutes only.  Whatever the shapes, a call that finishes leaves a value of
    the same shape with the same year, month and day at every position.  When
    the shapes match the call does finish: a single date with scalar time
    gets the current hour and minute; a range of two dates with pairs of time
    gets the first hour and minute on its first date and the second on its
    second.  A range with one endpoint waiting is not a pair: in range mode
    the call stores the new hours or minutes in its ref and leaves the stored
    date as it is, emitting nothing.  Hours are taken in 0..23 and minutes in
    0..59. *)
Theorem updateTime_changes_time_only
    (p : CalendarProps) (now : Date) (st : State) (v : TimeNum) (isHours : bool) :
  timeOk true (hours st) ->
  timeOk false (minutes st) ->
  timeOk isHours v ->
  truthy (modelValue st) = true ->
  (forall st',
     dispatch p st (AUpdateTime now v isHours) = Done st' ->
     sameDays (internalModelValue st) (internalModelValue st'))
  /\
  (forall d h m n,
     range p = false ->
     modelValue st = MDate d -> hours st = Num h -> minutes st = Num m -> v = Num n ->
     let h' := if isHours then n else h in
     let m' := if isHours then m else n in
     exists st',
       dispatch p st (AUpdateTime now v isHours) = Done st' /\
       hours st' = Num h' /\ minutes st' = Num m' /\
       internalModelValue st' = MDate (mkDate (dYear d) (dMonth d) (dDay d) h' m'))
  /\
  (forall a b h0 h1 m0 m1 n0 n1,
     modelValue st = MArr [a; b] ->
     pairTimes st h0 h1 m0 m1 -> v = NumArr [n0; n1] ->
     let h0' := if isHours then n0 else h0 in
     let h1' := if isHours then n1 else h1 in
     let m0' := if isHours then m0 else n0 in
     let m1' := if isHours then m1 else n1 in
     exists st',
       dispatch p st (AUpdateTime now v isHours) = Done st' /\
       hours st' = NumArr [h0'; h1'] /\ minutes st' = NumArr [m0'; m1'] /\
       internalModelValue st'
         = MArr [mkDate (dYear a) (dMonth a) (dDay a) h0' m0';
                 mkDate (dYear b) (dMonth b) (dDay b) h1' m1'])
  /\
  (forall a,
     range p = true ->
     modelValue st = MArr [a] ->
     dispatch p st (AUpdateTime now v isHours)
       = Done (if isHours then set_hours v st else set_minutes v st)).
Proof.
  intros _ _ _ Hv. split; [|split; [|split]].
  - intros st' E. unfold dispatch, updateTime in E.
    set (st1 := if isHours then set_hours v st else set_minutes v st) in E.
    assert (Hm : modelValue st1 = modelValue st) by (subst st1; now destruct isHours).
    assert (He : emitted st1 = emitted st) by (subst st1; now destruct isHours).
    rewrite Hm, Hv in E.
    destruct (handleTimeUpdate p st1 (modelValue st)) as [st2| |] eqn:E2;
      try discriminate.
    simpl in E. injection E as <-.
    apply handleTimeUpdate_cases in E2.
    destruct E2 as [-> | (v' & -> & Hs & _)].
    + rewrite (hostSync_quiet st st1 He). fold (modelValue st1). rewrite Hm.
      apply sameDays_refl.
    + rewrite (hostSync_emit_update_from st st1 v' He).
      rewrite mapInternalModuleValues_value. exact Hs.
  - intros d h m n Hr Hd Hh Hmi -> h' m'.
    destruct st as [t hv mo ye hs ms mv evs]. simpl in *. subst.
    unfold dispatch, updateTime, handleTimeUpdate.
    destruct isHours; cbn -[hostSync]; rewrite Hr; cbn -[hostSync];
      unfold set_modelValue;
      rewrite hostSync_emit_update_from by reflexivity;
      eexists; (split; [reflexivity|]); repeat split.
  - intros a b h0 h1 m0 m1 n0 n1 Hd [Hh Hmi] -> h0' h1' m0' m1'.
    destruct st as [t hv mo ye hs ms mv evs]. simpl in *. subst.
    unfold dispatch, updateTime, handleTimeUpdate.
    destruct isHours; cbn -[hostSync];
      unfold set_modelValue;
      rewrite hostSync_emit_update_from by reflexivity;
      eexists; (split; [reflexivity|]); repeat split.
  - intros a Hr Ha.
    set (st1 := if isHours then set_hours v st else set_minutes v st).
    assert (Hm : modelValue st1 = MArr [a]) by (subst st1; now destruct isHours).
    assert (He : emitted st1 = emitted st) by (subst st1; now destruct isHours).
    unfold dispatch, updateTime. fold st1. rewrite Hm.
    unfold handleTimeUpdate. rewrite Hr. cbn [truthy isRange List.length Nat.eqb andb negb bind].
    now rewrite hostSync_quiet.
Qed.

(** C6, as stated, fails for a range whose second endpoint is still to be
    clicked: in range mode, with Jan 10 09:30 stored alone, [updateTime] with
    the hours 15 and 16 changes the hours ref and nothing else; the stored
    date keeps 09:30 and nothing is emitted. *)
Lemma updateTime_skips_waiting_endpoint :
  exists st',
    dispatch openProps
             (mkState (mkDate 2024 0 1 9 30) None 0 2024 (NumArr [9; 17]) (NumArr [30; 45])
                      (MArr [mkDate 2024 0 10 9 30]) [])
             (AUpdateTime (mkDate 2024 0 1 9 30) (NumArr [15; 16]) true) = Done st' /\
    range openProps = true /\
    hours st' = NumArr [15; 16] /\
    internalModelValue st' = MArr [mkDate 2024 0 10 9 30] /\
    emitted st' = [].
Proof. eexists. repeat split; reflexivity. Qed.

(** 2024-03-05 10:00 and [updateTime(15)]: 2024-03-05 15:00. *)
Definition singleState : State :=
  mkState (mkDate 2024 0 1 9 30) None 2 2024 (Num 10) (Num 0)
          (MDate (mkDate 2024 2 5 10 0)) [].

Lemma updateTime_changes_time_only_witness :
  exists st',
    dispatch singleProps singleState (AUpdateTime (mkDate 2024 0 1 9 30) (Num 15) true)
      = Done st' /\
    hours st' = Num 15 /\ minutes st' = Num 0 /\
    internalModelValue st' = MDate (mkDate 2024 2 5 15 0).
Proof.
  assert (H10 : hourOk 10) by (unfold hourOk; lia).
  assert (H0 : minuteOk 0) by (unfold minuteOk; lia).
  assert (H15 : hourOk 15) by (unfold hourOk; lia).
  exact (proj1 (proj2 (updateTime_changes_time_only singleProps (mkDate 2024 0 1 9 30)
                         singleState (Num 15) true H10 H0 H15 eq_refl))
           (mkDate 2024 2 5 10 0) 10 0 15 eq_refl eq_refl eq_refl eq_refl eq_refl).
Defined.


(** *** The shape of hours and minutes *)

(** Pairs in range mode, scalars otherwise. *)
Definition timeFits (p : CalendarProps) (v : TimeNum) : Prop :=
  if range p then isNumberArray v = true else exists n, v = Num n.

Definition shapeMatches (p : CalendarProps) (st : State) : Prop :=
  timeFits p (hours st) /\ timeFits p (minutes st).

(** A model value of the shape the mode expects. *)
Definition valueFits (p : CalendarProps) (v : InternalModuleValue) : Prop :=
  match v with
  | MNull => True
  | MDate _ => range p = false
  | MArr _ => range p = true
  end.

(** A configuration whose parts agree with the range flag: the start time
    has the shape of the mode, and the month picker, which stores a single
    date, is not combined with range mode. *)
Definition configFits (p : CalendarProps) : Prop :=
  match startTime p with
  | STNone => True
  | STOne _ => range p = false
  | STArr _ => range p = true
  end /\
  (monthPicker p = true -> range p = false).

(** What [updateTime] is given, and what the host stores on its own, have the
    shape of the mode. *)
Definition actionFits (p : CalendarProps) (a : Action) : Prop :=
  match a with
  | AUpdateTime _ v _ => timeFits p v
  | AHostSet v => valueFits p v
  | _ => True
  end.

(** The states reached through inputs of the shape of the mode. *)
Inductive reachableFit (p : CalendarProps) : State -> Prop :=
| fit_mount now v st :
    valueFits p v ->
    onMounted p (useCalendar p now v) = Done st -> reachableFit p st
| fit_step st a st' :
    reachableFit p st -> actionFits p a ->
    dispatch p st a = Done st' -> reachableFit p st'.

Lemma reachableFit_reachable (p : CalendarProps) (st : State) :
  reachableFit p st -> reachable p st.
Proof.
  induction 1 as [now v st Hv E | st a st' _ IH _ E].
  - exact (reach_mount p now v st E).
  - exact (reach_step p st a st' IH E).
Qed.

(** The invariant: the times and the stored value both have the shape of
    the mode. *)
Definition fits (p : CalendarProps) (st : State) : Prop :=
  shapeMatches p st /\ valueFits p (internalModelValue st).

Lemma timeFits_pair_range (p : CalendarProps) (a : list Z) :
  timeFits p (NumArr a) -> range p = true.
Proof.
  unfold timeFits. destruct (range p); [reflexivity|]. intros (n & [=]).
Qed.

Lemma timeFits_num_single (p : CalendarProps) (n : Z) :
  timeFits p (Num n) -> range p = false.
Proof.
  unfold timeFits. destruct (range p); [discriminate|reflexivity].
Qed.

Lemma timeFits_pair (p : CalendarProps) (x y : Z) :
  range p = true -> timeFits p (NumArr [x; y]).
Proof. unfold timeFits. now intros ->. Qed.

Lemma timeFits_num (p : CalendarProps) (n : Z) :
  range p = false -> timeFits p (Num n).
Proof. unfold timeFits. intros ->. now exists n. Qed.

(** The watcher keeps the invariant when the value stored fits. *)
Lemma mapInternalModuleValues_fits (p : CalendarProps) (st : State) :
  fits p st -> fits p (mapInternalModuleValues st).
Proof.
  intros [[Hh Hm] Hv].
  destruct st as [t hv mo ye hs ms v evs].
  unfold mapInternalModuleValues, modelValue; simpl in *.
  destruct v as [|d|[|d0 [|d1 [|d2 l]]]]; simpl;
    try (split; [split|]; assumption).
  - split; [split|]; try assumption; now apply timeFits_num.
  - split; [split|]; try assumption; now apply timeFits_pair.
Qed.

(** A handler that keeps the times in shape, leaves the prop alone and emits
    at most one update, of a fitting value. *)
Definition emitsFitting (p : CalendarProps) (st st' : State) : Prop :=
  shapeMatches p st' /\
  internalModelValue st' = internalModelValue st /\
  (emitted st' = emitted st \/
   exists v, valueFits p v /\
     (emitted st' = emitted st ++ [EvUpdate v] \/
      emitted st' = emitted st ++ [EvUpdate v; EvAutoApply])).

Lemma hostSync_fits (p : CalendarProps) (st st' : State) :
  fits p st -> emitsFitting p st st' -> fits p (hostSync st st').
Proof.
  intros [_ Hv] (Hs & Hi & He). unfold hostSync.
  destruct He as [E | (v & Hf & [E | E])]; rewrite E.
  - rewrite skipn_all. simpl. split; [exact Hs | now rewrite Hi].
  - rewrite skipn_emitted_app. simpl.
    apply mapInternalModuleValues_fits. split; [exact Hs | exact Hf].
  - rewrite skipn_emitted_app. simpl.
    apply mapInternalModuleValues_fits. split; [exact Hs | exact Hf].
Qed.

Lemma emitsFitting_update (p : CalendarProps) (st st1 : State) (v : InternalModuleValue) :
  shapeMatches p st1 ->
  internalModelValue st1 = internalModelValue st ->
  emitted st1 = emitted st ->
  valueFits p v ->
  emitsFitting p st (emit (EvUpdate v) st1).
Proof.
  intros Hs Hi He Hf. split; [exact Hs|]. split; [exact Hi|].
  right. exists v. split; [exact Hf|]. left. simpl. now rewrite He.
Qed.

Lemma emitsFitting_update_autoApplied
    (p : CalendarProps) (st : State) (v : InternalModuleValue) :
  shapeMatches p st -> valueFits p v ->
  emitsFitting p st (autoApplied p (emit (EvUpdate v) st)).
Proof.
  intros Hs Hf. unfold autoApplied.
  destruct (autoApply p).
  - split; [exact Hs|]. split; [reflexivity|].
    right. exists v. split; [exact Hf|]. right. simpl. now rewrite <- app_assoc.
  - now apply emitsFitting_update.
Qed.

Lemma emitsFitting_quiet (p : CalendarProps) (st st1 : State) :
  shapeMatches p st1 ->
  internalModelValue st1 = internalModelValue st ->
  emitted st1 = emitted st ->
  emitsFitting p st st1.
Proof. intros Hs Hi He. split; [exact Hs|]. split; [exact Hi|]. now left. Qed.


(** [selectDate] either leaves the state alone or emits one update,
    followed by 'autoApply' or not: a date outside range mode with scalar
    times, a range when the times are pairs. *)
Lemma selectDate_cases (p : CalendarProps) (st st' : State) (day : ICalendarDay) :
  selectDate p st day = Done st' ->
  st' = st \/
  (exists v,
     (st' = emit (EvUpdate v) st \/ st' = emit EvAutoApply (emit (EvUpdate v) st)) /\
     ((exists d, v = MDate d /\ range p = false) \/
      (exists l, v = MArr l /\ isNumberArray (hours st) = true))).
Proof.
  unfold selectDate.
  destruct (isDisabled p (value day)); [intros [= <-]; now left|].
  destruct (negb (range p) && negb (isNumberArray (hours st))
            && negb (isNumberArray (minutes st))) eqn:E1.
  - destruct (hours st) as [h|hs]; [|intros [=]].
    destruct (minutes st) as [m|ms]; [|intros [=]].
    apply andb_true_iff in E1. destruct E1 as [E1 _].
    apply andb_true_iff in E1. destruct E1 as [E1 _].
    apply negb_true_iff in E1.
    intros [= <-]. right. eexists. split.
    + destruct (autoApply p); [right|left]; reflexivity.
    + left. eexists. split; [reflexivity | exact E1].
  - destruct (isNumberArray (hours st) && isNumberArray (minutes st)) eqn:E2;
      [|intros [= <-]; now left].
    apply andb_true_iff in E2. destruct E2 as [E2 _].
    destruct (hours st) as [h|hs] eqn:Eh; [discriminate|].
    destruct (minutes st) as [m|ms]; [intros [=]|].
    unfold bind.
    repeat match goal with
    | |- context [match ?x with _ => _ end] =>
        match x with
        | autoApply _ => fail 1
        | _ => destruct x eqn:?; try (intros [=]; fail)
        end
    end;
    intros [= <-]; right; eexists; (split; [|right; eexists; split; [reflexivity|exact E2]]);
    try (destruct (autoApply p); [right|left]; reflexivity);
    left; reflexivity.
Qed.

Lemma selectDate_emitsFitting (p : CalendarProps) (st st' : State) (day : ICalendarDay) :
  fits p st -> selectDate p st day = Done st' -> emitsFitting p st st'.
Proof.
  intros [Hs Hv] E. apply selectDate_cases in E.
  destruct E as [-> | (v & Hst & Hshape)].
  - now apply emitsFitting_quiet.
  - assert (Hf : valueFits p v).
    { destruct Hshape as [(d & -> & Hr) | (l & -> & Ha)]; simpl; [exact Hr|].
      destruct Hs as [Hh _]. destruct (hours st) as [h|hs]; [discriminate|].
      exact (timeFits_pair_range p hs Hh). }
    destruct Hst as [-> | ->].
    + now apply emitsFitting_update.
    + split; [exact Hs|]. split; [reflexivity|].
      right. exists v. split; [exact Hf|]. right. simpl. now rewrite <- app_assoc.
Qed.

Lemma updateMonthYear_emitsFitting
    (p : CalendarProps) (now : Date) (st st' : State) (v : Z) (isMonth : bool) :
  configFits p -> fits p st ->
  updateMonthYear p now st v isMonth = Done st' -> emitsFitting p st st'.
Proof.
  intros [_ Hc] [Hs Hv]. unfold updateMonthYear.
  set (st1 := if isMonth then set_month v st else set_year v st).
  assert (H1 : shapeMatches p st1) by (subst st1; now destruct isMonth).
  assert (H2 : internalModelValue st1 = internalModelValue st)
    by (subst st1; now destruct isMonth).
  assert (H3 : emitted st1 = emitted st) by (subst st1; now destruct isMonth).
  destruct (monthPicker p).
  - destruct (modelValue st1); intros [= <-];
      apply emitsFitting_update; auto; simpl; auto.
  - intros [= <-]. now apply emitsFitting_quiet.
Qed.

Lemma updateTime_emitsFitting
    (p : CalendarProps) (now : Date) (st st' : State) (v : TimeNum) (isHours : bool) :
  fits p st -> timeFits p v ->
  updateTime p now st v isHours = Done st' -> emitsFitting p st st'.
Proof.
  intros [[Hh Hm] Hv] Hf. unfold updateTime.
  set (st1 := if isHours then set_hours v st else set_minutes v st).
  assert (H1 : shapeMatches p st1) by (subst st1; destruct isHours; split; assumption).
  assert (H2 : internalModelValue st1 = internalModelValue st)
    by (subst st1; now destruct isHours).
  assert (H3 : emitted st1 = emitted st) by (subst st1; now destruct isHours).
  assert (K : forall dv, handleTimeUpdate p st1 dv = Done st' -> emitsFitting p st st').
  { intros dv E. apply handleTimeUpdate_cases in E.
    destruct E as [-> | (v' & -> & _ & Hshape)].
    - now apply emitsFitting_quiet.
    - apply emitsFitting_update; auto.
      destruct Hshape as [(l & -> & Ha) | (d & -> & Hr)]; simpl; [|exact Hr].
      destruct H1 as [Hh1 _]. destruct (hours st1) as [h|hs]; [discriminate|].
      exact (timeFits_pair_range p hs Hh1). }
  destruct (truthy (modelValue st1)); [apply K|].
  destruct (timePicker p); [apply K|].
  intros [= <-]. now apply emitsFitting_quiet.
Qed.

Lemma useCalendar_fits (p : CalendarProps) (now : Date) (v : InternalModuleValue) :
  valueFits p v -> fits p (useCalendar p now v).
Proof.
  intros Hv. split; [|exact Hv].
  unfold shapeMatches, timeFits, useCalendar; simpl.
  destruct (range p); split; eauto.
Qed.

Lemma onMounted_fits (p : CalendarProps) (st st' : State) :
  configFits p -> fits p st -> onMounted p st = Done st' -> fits p st'.
Proof.
  intros [Hc _] Hf. apply mapInternalModuleValues_fits in Hf.
  unfold onMounted. set (st1 := mapInternalModuleValues st) in *.
  destruct (negb (truthy (modelValue st1))); [|intros [= <-]; exact Hf].
  set (st2 := match startDate p with
              | Some sd => set_year (getDateYear sd) (set_month (getDateMonth sd) st1)
              | None => st1
              end).
  assert (Hf2 : fits p st2) by (subst st2; destruct (startDate p); exact Hf).
  unfold assignStartTime.
  destruct (startTime p) as [|t|[|t0 [|t1 [|t2 l]]]]; simpl;
    try (intros [=]; fail); intros [= <-]; try exact Hf2.
  - destruct Hf2 as [_ Hv2]. split; [|exact Hv2].
    split; now apply timeFits_num.
  - destruct Hf2 as [_ Hv2]. split; [|exact Hv2].
    split; now apply timeFits_pair.
Qed.

Lemma dispatch_fits (p : CalendarProps) (st st' : State) (a : Action) :
  configFits p -> fits p st -> actionFits p a ->
  dispatch p st a = Done st' -> fits p st'.
Proof.
  intros Hc Hf Ha. destruct a as [day|day|now v isMonth|now v isHours|v]; simpl.
  - destruct (selectDate p st day) as [st1| |] eqn:E; try discriminate.
    simpl. intros [= <-]. apply hostSync_fits; [exact Hf|].
    now apply (selectDate_emitsFitting p st st1 day).
  - intros [= <-]. exact Hf.
  - destruct (updateMonthYear p now st v isMonth) as [st1| |] eqn:E; try discriminate.
    simpl. intros [= <-]. apply hostSync_fits; [exact Hf|].
    now apply (updateMonthYear_emitsFitting p now st st1 v isMonth).
  - destruct (updateTime p now st v isHours) as [st1| |] eqn:E; try discriminate.
    simpl. intros [= <-]. apply hostSync_fits; [exact Hf|].
    now apply (updateTime_emitsFitting p now st st1 v isHours).
  - intros [= <-]. apply mapInternalModuleValues_fits.
    destruct Hf as [Hs _]. split; [exact Hs | exact Ha].
Qed.


(** The engine as mounted at 2024-01-01 09:30 with nothing selected. *)
Definition newYearMorning : Date := mkDate 2024 0 1 9 30.

Definition mountedRange : State :=
  mkState newYearMorning None 0 2024 (NumArr [9; 9]) (NumArr [30; 30]) MNull [].

Example mountedRange_mounted :
  onMounted openProps (useCalendar openProps newYearMorning MNull) = Done mountedRange.
Proof. reflexivity. Qed.

(** C7, as stated, fails: in range mode [updateTime] stores a scalar it is
    given, and the reachable state that results has scalar hours. *)
Lemma updateTime_scalar_breaks_shape :
  exists st,
    dispatch openProps mountedRange (AUpdateTime newYearMorning (Num 5) true) = Done st /\
    reachable openProps st /\
    range openProps = true /\
    hours st = Num 5 /\
    ~ shapeMatches openProps st.
Proof.
  eexists. split; [reflexivity|]. split; [|split; [reflexivity|split; [reflexivity|]]].
  - apply (reach_step openProps mountedRange (AUpdateTime newYearMorning (Num 5) true)).
    + eapply reach_mount. exact mountedRange_mounted.
    + reflexivity.
  - intros [H _]. unfold timeFits in H. simpl in H. discriminate.
Qed.

(** C7, amended.  After mounting, and after any sequence of operations in
    which every value passed to [updateTime] and every value the host stores
    has the shape of the mode, hours and minutes are pairs when the range flag
    is set and scalars when it is not, provided the configuration agrees with
    the flag (start time of the shape of the mode, no month picker in range
    mode).  [updateTime] itself stores what it is given unchecked. *)
Theorem shape_matches_on_fitting_inputs (p : CalendarProps) (st : State) :
  configFits p -> reachableFit p st -> shapeMatches p st.
Proof.
  intros Hc Hr.
  enough (fits p st) as [Hs _] by exact Hs.
  induction Hr as [now v st Hv E | st a st' _ IH Ha E].
  - apply (onMounted_fits p (useCalendar p now v) st Hc); [|exact E].
    now apply useCalendar_fits.
  - exact (dispatch_fits p st st' a Hc IH Ha E).
Qed.

Lemma shape_matches_on_fitting_inputs_witness :
  exists st,
    dispatch openProps mountedRange (AUpdateTime newYearMorning (NumArr [15; 16]) true)
      = Done st /\
    hours st = NumArr [15; 16] /\
    shapeMatches openProps st.
Proof.
  eexists. split; [reflexivity|]. split; [reflexivity|].
  apply (shape_matches_on_fitting_inputs openProps).
  - split; [exact I | discriminate].
  - apply (fit_step openProps mountedRange
             (AUpdateTime newYearMorning (NumArr [15; 16]) true)).
    + apply (fit_mount openProps newYearMorning MNull mountedRange I).
      reflexivity.
    + reflexivity.
    + reflexivity.
Defined.


(** *** The order of a stored range *)

(** Chronological order to the minute, for dates whose hour and minute are a
    clock's: the calendar day first, then the hour, then the minute. *)
Definition instant_ltb (a b : Date) : bool :=
  dayKey_ltb (dayKey a) (dayKey b)
  || (dayKey_eqb (dayKey a) (dayKey b)
      && ((dHours a <? dHours b)
          || ((dHours a =? dHours b) && (dMinutes a <? dMinutes b)))).

(** The first time of a pair is not later than the second. *)
Definition timesInOrder (h0 h1 m0 m1 : Z) : Prop :=
  h0 < h1 \/ (h0 = h1 /\ m0 <= m1).

Lemma dayKey_eqb_sym (a b : Z * Z * Z) : dayKey_eqb a b = dayKey_eqb b a.
Proof.
  destruct a as [[ya ma] da], b as [[yb mb] db]; unfold dayKey_eqb.
  now rewrite (Z.eqb_sym ya yb), (Z.eqb_sym ma mb), (Z.eqb_sym da db).
Qed.

Lemma dayKey_ltb_not_eqb (a b : Z * Z * Z) :
  dayKey_ltb a b = true -> dayKey_eqb b a = false.
Proof.
  intros H. destruct (dayKey_eqb b a) eqn:E; [|reflexivity].
  apply dayKey_eqb_eq in E. subst b.
  pose proof (dayKey_ltb_asym a a H). congruence.
Qed.

(** With [x] on a day not after [y]'s, [x] at the first time is not after
    [y] at the second when the days differ or the times are in order. *)
Lemma instant_ltb_by_position (x y : Date) (h0 h1 m0 m1 : Z) :
  dayKey_ltb (dayKey y) (dayKey x) = false ->
  dayKey_eqb (dayKey y) (dayKey x) = false \/ timesInOrder h0 h1 m0 m1 ->
  instant_ltb (setDateTime y h1 m1) (setDateTime x h0 m0) = false.
Proof.
  intros Hd Ht. unfold instant_ltb. rewrite !setDateTime_dayKey, Hd.
  cbn [orb setDateTime dHours dMinutes].
  destruct Ht as [-> | Ht]; [reflexivity|].
  apply andb_false_iff. right.
  apply orb_false_iff. split.
  - apply Z.ltb_ge. destruct Ht as [H | [-> _]]; lia.
  - apply andb_false_iff. destruct Ht as [H | [-> H]].
    + left. apply Z.eqb_neq. lia.
    + right. apply Z.ltb_ge. lia.
Qed.

(** C1, as stated, fails: the code orders the two endpoints by calendar day
    and applies the two times by position.  With hours 17 and 9 the same day
    clicked twice is stored as 17:30 followed by 09:30. *)
Lemma same_day_twice_stores_later_time_first :
  exists st2 a b,
    run openProps mountedRange
        [AUpdateTime newYearMorning (NumArr [17; 9]) true;
         ASelectDate (cell (jan 5)); ASelectDate (cell (jan 5))] = Done st2 /\
    internalModelValue st2 = MArr [a; b] /\
    a = mkDate 2024 0 5 17 30 /\ b = mkDate 2024 0 5 9 30 /\
    instant_ltb b a = true.
Proof. eexists; eexists; eexists. repeat split; reflexivity. Qed.

(** C1, amended.  Two clicks on days that are not disabled, starting with no
    endpoint waiting, leave a range of two endpoints stored, the earlier
    calendar day first, whichever of the two was clicked first: a second
    click on an earlier day puts it in front of the first endpoint, which
    moves to second position.  The first hour and minute go to the first
    endpoint and the second to the second, uncompared: the two endpoints are
    in chronological order when the two days differ or the first time is not
    later than the second.  Hours are taken in 0..23 and minutes in 0..59. *)
Theorem two_clicks_store_day_ordered_range
    (p : CalendarProps) (st : State) (d1 d2 : ICalendarDay) (h0 h1 m0 m1 : Z) :
  hourOk h0 -> hourOk h1 -> minuteOk m0 -> minuteOk m1 ->
  pairTimes st h0 h1 m0 m1 ->
  noPendingEndpoint (modelValue st) ->
  isDisabled p (value d1) = false ->
  isDisabled p (value d2) = false ->
  exists st2 a b,
    run p st [ASelectDate d1; ASelectDate d2] = Done st2 /\
    internalModelValue st2 = MArr [a; b] /\
    isDateAfter a b = false /\
    (isDateEqual (value d1) (value d2) = false -> isDateBefore a b = true) /\
    (isDateEqual (value d1) (value d2) = false \/ timesInOrder h0 h1 m0 m1 ->
     instant_ltb b a = false) /\
    (if isDateBefore (value d2) (value d1)
     then a = setDateTime (value d2) h0 m0 /\ b = setDateTime (value d1) h1 m1
     else a = setDateTime (value d1) h0 m0 /\ b = setDateTime (value d2) h1 m1).
Proof.
  intros _ _ _ _ Ht Hv Hd1 Hd2.
  pose proof (selectDate_first_endpoint p st d1 h0 h1 m0 m1 Ht Hv Hd1) as E1.
  apply dispatch_selectDate_update in E1.
  set (v1 := MArr [setDateTime (value d1) h0 m0]) in E1.
  set (st1 := mapInternalModuleValues (set_internalModelValue v1 (emit (EvUpdate v1) st))) in E1.
  assert (Ht1 : pairTimes st1 h0 h1 m0 m1) by (destruct Ht; split; assumption).
  assert (Hv1 : modelValue st1 = MArr [setDateTime (value d1) h0 m0]) by reflexivity.
  pose proof (selectDate_second_endpoint p st1 d2 _ h0 h1 m0 m1 Ht1 Hv1 Hd2) as E2.
  apply dispatch_selectDate_update_autoApplied in E2.
  rewrite isDateBefore_setDateTime_r in E2.
  match type of E2 with _ = Done ?s => remember s as st2 eqn:Hst2 end.
  assert (Hmv : internalModelValue st2
                = MArr (if isDateBefore (value d2) (value d1)
                        then [setDateTime (value d2) h0 m0; setDateTime (value d1) h1 m1]
                        else [setDateTime (value d1) h0 m0; setDateTime (value d2) h1 m1])).
  { subst st2. rewrite mapInternalModuleValues_value. simpl.
    destruct (isDateBefore (value d2) (value d1)); reflexivity. }
  assert (R : run p st [ASelectDate d1; ASelectDate d2] = Done st2).
  { unfold run. rewrite E1. cbn [bind]. rewrite E2. reflexivity. }
  clear Hst2 E2.
  unfold isDateEqual.
  destruct (isDateBefore (value d2) (value d1)) eqn:Hb; unfold isDateBefore in Hb.
  - exists st2, (setDateTime (value d2) h0 m0), (setDateTime (value d1) h1 m1).
    split; [exact R|]. split; [exact Hmv|].
    unfold isDateAfter, isDateBefore. rewrite !setDateTime_dayKey.
    split; [now apply dayKey_ltb_asym|]. split; [intros _; exact Hb|].
    split; [|split; reflexivity].
    intros _. apply instant_ltb_by_position.
    + now apply dayKey_ltb_asym.
    + left. now apply dayKey_ltb_not_eqb.
  - exists st2, (setDateTime (value d1) h0 m0), (setDateTime (value d2) h1 m1).
    split; [exact R|]. split; [exact Hmv|].
    unfold isDateAfter, isDateBefore. rewrite !setDateTime_dayKey.
    split; [exact Hb|]. split; [intros Hne; now apply dayKey_ltb_total|].
    split; [|split; reflexivity].
    intros H. apply instant_ltb_by_position; [exact Hb|].
    destruct H as [H | H]; [left | right; exact H].
    now rewrite dayKey_eqb_sym.
Qed.

(** Jan 10 and then Jan 5: the range stored is Jan 5 09:30, Jan 10 17:45. *)
Lemma two_clicks_store_day_ordered_range_witness :
  exists st2 a b,
    run openProps rangeState [ASelectDate (cell (jan 10)); ASelectDate (cell (jan 5))]
      = Done st2 /\
    internalModelValue st2 = MArr [a; b] /\
    isDateAfter a b = false /\
    (isDateEqual (jan 10) (jan 5) = false -> isDateBefore a b = true) /\
    (isDateEqual (jan 10) (jan 5) = false \/ timesInOrder 9 17 30 45 ->
     instant_ltb b a = false) /\
    a = mkDate 2024 0 5 9 30 /\ b = mkDate 2024 0 10 17 45.
Proof.
  apply (two_clicks_store_day_ordered_range openProps rangeState
           (cell (jan 10)) (cell (jan 5)) 9 17 30 45).
  - unfold hourOk; lia.
  - unfold hourOk; lia.
  - unfold minuteOk; lia.
  - unfold minuteOk; lia.
  - split; reflexivity.
  - left; reflexivity.
  - reflexivity.
  - reflexivity.
Defined.

End CalendarSpec.

(** ** Properties of the menu positioning engine *)

Module PositionSpec.

Import Position.
Open Scope Q_scope.

Lemma gtb_true_iff (a b : Q) : gtb a b = true <-> b < a.
Proof.
  unfold gtb. rewrite negb_true_iff. split.
  - intros E. apply Qnot_le_lt. intros H. apply Qle_bool_iff in H. congruence.
  - intros H. destruct (Qle_bool a b) eqn:E; [|reflexivity].
    apply Qle_bool_iff in E. exfalso. exact (Qlt_not_le _ _ H E).
Qed.

Lemma gtb_false_iff (a b : Q) : gtb a b = false <-> a <= b.
Proof.
  unfold gtb. rewrite negb_false_iff. apply Qle_bool_iff.
Qed.

(** The horizontal alignment leaves [top], [openOnTop] and the log alone. *)
Lemma setPositioning_top (props : AllPropsType) (l w : Q) (st : State) :
  top (menuPosition (setPositioning props l w st)) = top (menuPosition st).
Proof. unfold setPositioning. destruct (propPosition props); reflexivity. Qed.

Lemma setPositioning_openOnTop (props : AllPropsType) (l w : Q) (st : State) :
  openOnTop (setPositioning props l w st) = openOnTop st.
Proof. unfold setPositioning. destruct (propPosition props); reflexivity. Qed.

(** What the configured alignment writes. *)
Definition aligned (props : AllPropsType) (l w : Q) (m : MenuPosition) : Prop :=
  match propPosition props with
  | OpenPosition.left => left m = Px l /\ transform m = "translateX(0)"%string
  | OpenPosition.right => left m = Px (l + w) /\ transform m = "translateX(-100%)"%string
  | OpenPosition.center => left m = Px (l + w / 2) /\ transform m = "translateX(-50%)"%string
  end.

Lemma setPositioning_aligned (props : AllPropsType) (l w : Q) (st : State) :
  aligned props l w (menuPosition (setPositioning props l w st)).
Proof.
  unfold aligned, setPositioning. destruct (propPosition props); split; reflexivity.
Qed.

(** C8.  When the panel and the anchor together need more than the free
    space below the anchor but no more than the space above it, the panel is
    placed above: [openOnTop] becomes true and [menuPosition.top] is the
    anchor offset minus the panel height minus the configured offset, in
    pixels; nothing else changes. *)
Theorem positionTopBottom_flips_above
    (env : Env) (props : AllPropsType)
    (height inputHeight freeSpaceBottom anchorTop offs : Q) (st : State) :
  freeSpaceBottom < height + inputHeight ->
  height + inputHeight <= anchorTop ->
  let st' := positionTopBottom env props height inputHeight freeSpaceBottom
                               anchorTop offs st in
  openOnTop st' = true /\
  top (menuPosition st') = Px (offs - height - offset props) /\
  left (menuPosition st') = left (menuPosition st) /\
  transform (menuPosition st') = transform (menuPosition st) /\
  position (menuPosition st') = position (menuPosition st) /\
  emitted st' = emitted st.
Proof.
  intros Hbelow Habove st'. subst st'. unfold positionTopBottom.
  apply gtb_true_iff in Hbelow. apply gtb_false_iff in Habove.
  rewrite Hbelow, Habove. simpl. repeat split.
Qed.

(** An anchor 700 units down an 800-unit viewport, a panel 300 high. *)
Definition lowAnchor : HTMLElement :=
  mkEl (mkRect 40 700 200 30 240) 40 700 0 0 None.

Definition lowEnv : Env := mkEnv 0 0 800 1200 (Some lowAnchor) None.

Definition leftProps : AllPropsType :=
  mkProps false OpenPosition.left (AltFlag false) 10 false true.

Lemma positionTopBottom_flips_above_witness :
  let st' := positionTopBottom lowEnv leftProps 300 30 70 700 700 usePosition in
  openOnTop st' = true /\
  top (menuPosition st') = Px (700 - 300 - 10) /\
  left (menuPosition st') = Raw "0" /\
  transform (menuPosition st') = "none"%string /\
  position (menuPosition st') = None /\
  emitted st' = [].
Proof.
  apply (positionTopBottom_flips_above lowEnv leftProps 300 30 70 700 700 usePosition).
  - reflexivity.
  - discriminate.
Defined.

(** *** The first placement *)

(** The page offset of the anchor that [setInitialPosition] uses. *)
Definition anchorOffset (env : Env) (props : AllPropsType) (el : HTMLElement) : Q * Q :=
  if altPosition_truthy props then getOffsetAlt el else getOffset env el.

(** A length of [q] pixels, up to equality of rationals. *)
Definition isPx (v : CssValue) (q : Q) : Prop :=
  exists n, v = Px n /\ n == q.

(** An anchor at the top of the page: 100 units down the viewport, the page
    scrolled by 50, 30 high. *)
Definition highAnchor : HTMLElement :=
  mkEl (mkRect 40 100 200 30 240) 40 100 0 0 None.

Definition highEnv : Env := mkEnv 0 50 800 1200 (Some highAnchor) None.

(** C9, as stated, fails in its second case: with more room below than the
    anchor's top the panel is put at the anchor's top offset (150 here), not
    at the anchor's bottom (150 + 30). *)
Lemma setInitialPosition_not_at_anchor_bottom :
  let rect := getBoundingClientRect highAnchor in
  let st' := setInitialPosition highEnv leftProps usePosition in
  rectTop rect <= innerHeight highEnv - rectTop rect - rectHeight rect /\
  top (menuPosition st') = Px (100 + 50) /\
  ~ isPx (top (menuPosition st'))
         (fst (anchorOffset highEnv leftProps highAnchor) + rectHeight rect).
Proof.
  split; [discriminate|]. split; [reflexivity|].
  intros (n & E & H). injection E as <-. revert H. discriminate.
Qed.

(** C9, amended.  With an anchor mounted, [setInitialPosition] computes the
    free space below the anchor from the viewport height; when the anchor's
    top exceeds it, [menuPosition.top] is 390 units above the anchor's top
    offset, and otherwise it is the anchor's top offset itself; in both cases
    the configured horizontal alignment is written and nothing else
    changes. *)
Theorem setInitialPosition_first_placement
    (env : Env) (props : AllPropsType) (st : State) (inputEl : HTMLElement) :
  inputRef env = Some inputEl ->
  let rect := getBoundingClientRect inputEl in
  let offs := fst (anchorOffset env props inputEl) in
  let l := snd (anchorOffset env props inputEl) in
  let freeBottom := innerHeight env - rectTop rect - rectHeight rect in
  let st' := setInitialPosition env props st in
  (freeBottom < rectTop rect -> top (menuPosition st') = Px (offs - 390)) /\
  (rectTop rect <= freeBottom -> top (menuPosition st') = Px offs) /\
  aligned props l (rectWidth rect) (menuPosition st') /\
  position (menuPosition st') = position (menuPosition st) /\
  openOnTop st' = openOnTop st /\
  emitted st' = emitted st.
Proof.
  intros Hel rect offs l freeBottom st'.
  subst st'. unfold setInitialPosition. rewrite Hel.
  fold (anchorOffset env props inputEl). subst offs l.
  destruct (anchorOffset env props inputEl) as [o lft]. cbn [fst snd].
  fold rect. fold freeBottom.
  split; [|split; [|split; [|split; [|split]]]].
  - intros H. apply gtb_true_iff in H. rewrite setPositioning_top, H. reflexivity.
  - intros H. apply gtb_false_iff in H. rewrite setPositioning_top, H. reflexivity.
  - apply setPositioning_aligned.
  - unfold setPositioning. destruct (propPosition props); reflexivity.
  - rewrite setPositioning_openOnTop. reflexivity.
  - unfold setPositioning. destruct (propPosition props); reflexivity.
Qed.

Lemma setInitialPosition_first_placement_witness :
  let st' := setInitialPosition lowEnv leftProps usePosition in
  (800 - 700 - 30 < 700 -> top (menuPosition st') = Px (700 + 0 - 390)) /\
  (700 <= 800 - 700 - 30 -> top (menuPosition st') = Px (700 + 0)) /\
  aligned leftProps (40 + 0) 200 (menuPosition st') /\
  position (menuPosition st') = None /\
  openOnTop st' = false /\
  emitted st' = [].
Proof.
  exact (setInitialPosition_first_placement lowEnv leftProps usePosition lowAnchor eq_refl).
Defined.

Example setInitialPosition_low_anchor :
  menuPosition (setInitialPosition lowEnv leftProps usePosition)
  = mkMenuPosition (Px (700 + 0 - 390)) (Px (40 + 0)) "translateX(0)" None.
Proof. reflexivity. Qed.

End PositionSpec.

(** ** Further properties of the calendar selection engine *)

Module CalendarExtra.

Import Calendar CalendarSpec.
Open Scope Z_scope.

(** *** What a click does, in every state *)

(** The dates a model value holds. *)
Definition datesOf (v : InternalModuleValue) : list Date :=
  match v with
  | MNull => []
  | MDate d => [d]
  | MArr l => l
  end.

(** The value [v] carries the times [hs], [ms] wherever the watcher would
    read them back: a single date its hour and minute, a range of two the
    pair. *)
Definition carriesTimes (v : InternalModuleValue) (hs ms : TimeNum) : Prop :=
  match v with
  | MDate d => hs = Num (getDateHours d) /\ ms = Num (getDateMinutes d)
  | MArr [a; b] =>
      hs = NumArr [getDateHours a; getDateHours b] /\
      ms = NumArr [getDateMinutes a; getDateMinutes b]
  | _ => True
  end.

(** Every way [selectDate] can finish: nothing done, or one update emitted,
    then 'autoApply' when it is configured and (in a range) both endpoints
    are there.  The value emitted holds the clicked day and carries the
    current times. *)
Lemma selectDate_done (p : CalendarProps) (st st' : State) (day : ICalendarDay) :
  selectDate p st day = Done st' ->
  st' = st \/
  (isDisabled p (value day) = false /\
   exists v,
     (st' = emit (EvUpdate v) st \/
      (st' = emit EvAutoApply (emit (EvUpdate v) st) /\ autoApply p = true)) /\
     carriesTimes v (hours st) (minutes st) /\
     (exists e, In e (datesOf v) /\ dayKey e = dayKey (value day))).
Proof.
  unfold selectDate.
  destruct (isDisabled p (value day)) eqn:Hd; [intros [= <-]; now left|].
  destruct (negb (range p) && negb (isNumberArray (hours st))
            && negb (isNumberArray (minutes st))) eqn:E1.
  - destruct (hours st) as [h|hs]; [|intros [=]].
    destruct (minutes st) as [m|ms]; [|intros [=]].
    intros [= <-]. right. split; [reflexivity|]. eexists. split; [|split].
    + destruct (autoApply p) eqn:Ha; [right; split; reflexivity | left; reflexivity].
    + split; reflexivity.
    + eexists. split; [left; reflexivity | reflexivity].
  - destruct (isNumberArray (hours st) && isNumberArray (minutes st)) eqn:E2;
      [|intros [= <-]; now left].
    apply andb_true_iff in E2. destruct E2 as [Eh Em].
    destruct (hours st) as [h|[|h0 [|h1 [|h2 hs]]]]; try discriminate.
    destruct (minutes st) as [m|[|m0 [|m1 [|m2 ms]]]]; try discriminate.
    destruct (modelValue st) as [|d|[|r0 [|r1 [|r2 l]]]]; simpl;
      try (intros [=]; fail);
      repeat match goal with
      | |- context [isDateBefore ?a ?b] => destruct (isDateBefore a b)
      end;
      simpl; destruct (autoApply p) eqn:Ha; intros [= <-];
      right; (split; [reflexivity|]); eexists;
      (split; [first [left; reflexivity | right; split; reflexivity]|]);
      (split; [simpl; try split; reflexivity|]);
      eexists;
      first [ split; [left; reflexivity | reflexivity]
            | split; [right; left; reflexivity | reflexivity] ].
Qed.

(** The events a handler appended. *)
Definition newEvents (st st' : State) : list Event :=
  skipn (List.length (emitted st)) (emitted st').

Lemma newEvents_app (st st' : State) (new : list Event) :
  emitted st' = emitted st ++ new -> newEvents st st' = new.
Proof. intros E. unfold newEvents. rewrite E. apply skipn_emitted_app. Qed.

(** X1.  [selectDate] writes no ref and not the prop: it only emits, an update
    first and 'autoApply' after it at most, and 'autoApply' only when it is
    configured. *)
Theorem selectDate_only_emits (p : CalendarProps) (st st' : State) (day : ICalendarDay) :
  selectDate p st day = Done st' ->
  today st' = today st /\ hoveredDate st' = hoveredDate st /\
  month st' = month st /\ year st' = year st /\
  hours st' = hours st /\ minutes st' = minutes st /\
  internalModelValue st' = internalModelValue st /\
  (newEvents st st' = [] \/
   exists v, newEvents st st' = [EvUpdate v] \/
             (newEvents st st' = [EvUpdate v; EvAutoApply] /\ autoApply p = true)).
Proof.
  intros E. apply selectDate_done in E.
  destruct E as [-> | (_ & v & [-> | [-> Ha]] & _)].
  - repeat split. left. unfold newEvents. apply skipn_all.
  - repeat split. right. exists v. left. now apply newEvents_app.
  - repeat split. right. exists v. right. split; [|exact Ha].
    apply newEvents_app. simpl. now rewrite <- app_assoc.
Qed.

Lemma selectDate_only_emits_witness :
  exists st',
    selectDate singleProps scalarState (cell (jan 10)) = Done st' /\
    hours st' = Num 9 /\ internalModelValue st' = MNull /\
    newEvents scalarState st' = [EvUpdate (MDate (mkDate 2024 0 10 9 30)); EvAutoApply].
Proof.
  eexists. split; [reflexivity|].
  pose proof (selectDate_only_emits singleProps scalarState _ (cell (jan 10)) eq_refl) as H.
  split; [|split]; [apply H | apply H | reflexivity].
Defined.

Lemma mapInternalModuleValues_carried (st : State) :
  carriesTimes (internalModelValue st) (hours st) (minutes st) ->
  hours (mapInternalModuleValues st) = hours st /\
  minutes (mapInternalModuleValues st) = minutes st.
Proof.
  destruct st as [t hv mo ye hs ms v evs].
  unfold mapInternalModuleValues, modelValue; simpl.
  destruct v as [|d|[|d0 [|d1 [|d2 l]]]]; simpl; try (intros _; split; reflexivity).
  - intros [-> ->]. split; reflexivity.
  - intros [-> ->]. split; reflexivity.
Qed.

Lemma mapInternalModuleValues_today_hover (st : State) :
  today (mapInternalModuleValues st) = today st /\
  hoveredDate (mapInternalModuleValues st) = hoveredDate st.
Proof.
  destruct st as [t hv mo ye hs ms v evs].
  unfold mapInternalModuleValues, modelValue; simpl.
  destruct v as [|d|[|d0 [|d1 [|d2 l]]]]; split; reflexivity.
Qed.

(** X2.  A click never changes the time: with hours in 0..23 and minutes in
    0..59, after the host has stored what the click emitted and the watcher
    has read it back, hours and minutes are what they were, in every mode;
    [today] and the hovered date stay too. *)
Theorem click_keeps_time (p : CalendarProps) (st st' : State) (day : ICalendarDay) :
  timeOk true (hours st) ->
  timeOk false (minutes st) ->
  dispatch p st (ASelectDate day) = Done st' ->
  hours st' = hours st /\ minutes st' = minutes st /\
  today st' = today st /\ hoveredDate st' = hoveredDate st.
Proof.
  intros _ _. unfold dispatch.
  destruct (selectDate p st day) as [st1| |] eqn:E; try discriminate.
  cbn [bind]. intros [= <-].
  apply selectDate_done in E.
  destruct E as [-> | (_ & v & [-> | [-> Ha]] & Hc & _)].
  - rewrite hostSync_same. repeat split.
  - rewrite hostSync_emit_update.
    destruct (mapInternalModuleValues_carried
                (set_internalModelValue v (emit (EvUpdate v) st)) Hc) as [-> ->].
    destruct (mapInternalModuleValues_today_hover
                (set_internalModelValue v (emit (EvUpdate v) st))) as [-> ->].
    repeat split.
  - rewrite hostSync_emit_update_autoApply.
    destruct (mapInternalModuleValues_carried
                (set_internalModelValue v (emit EvAutoApply (emit (EvUpdate v) st))) Hc)
      as [-> ->].
    destruct (mapInternalModuleValues_today_hover
                (set_internalModelValue v (emit EvAutoApply (emit (EvUpdate v) st))))
      as [-> ->].
    repeat split.
Qed.

Lemma click_keeps_time_witness :
  exists st',
    dispatch openProps completeState (ASelectDate (cell (jan 20))) = Done st' /\
    hours st' = NumArr [9; 17] /\ minutes st' = NumArr [30; 45] /\
    today st' = mkDate 2024 0 1 9 30 /\ hoveredDate st' = None.
Proof.
  eexists. split; [reflexivity|].
  apply (click_keeps_time openProps completeState _ (cell (jan 20))).
  - repeat constructor; unfold hourOk; lia.
  - repeat constructor; unfold minuteOk; lia.
  - reflexivity.
Defined.

(** *** Disabled days and what gets stored *)

(** X3.  A click emits an update only for a cell that is not disabled, and
    the value it emits holds a date of the clicked calendar day (hours taken
    in 0..23 and minutes in 0..59, so that the day is the one clicked). *)
Theorem click_stores_enabled_day
    (p : CalendarProps) (st st' : State) (day : ICalendarDay) (v : InternalModuleValue) :
  timeOk true (hours st) ->
  timeOk false (minutes st) ->
  selectDate p st day = Done st' ->
  In (EvUpdate v) (newEvents st st') ->
  isDisabled p (value day) = false /\
  exists e, In e (datesOf v) /\ sameDay e (value day).
Proof.
  intros _ _ E Hin.
  apply selectDate_done in E.
  destruct E as [-> | (Hd & v' & Hst & _ & e & He & Hk)].
  - unfold newEvents in Hin. rewrite skipn_all in Hin. destruct Hin.
  - assert (v = v').
    { destruct Hst as [-> | [-> _]].
      - rewrite (newEvents_app st (emit (EvUpdate v') st) [EvUpdate v']) in Hin
          by reflexivity.
        destruct Hin as [[= ->] | []]. reflexivity.
      - rewrite (newEvents_app st (emit EvAutoApply (emit (EvUpdate v') st))
                   [EvUpdate v'; EvAutoApply]) in Hin
          by (simpl; now rewrite <- app_assoc).
        destruct Hin as [[= ->] | [[=] | []]]. reflexivity. }
    subst v'. split; [exact Hd|]. exists e. split; [exact He|].
    unfold dayKey in Hk. injection Hk as Hy Hm Hday. repeat split; assumption.
Qed.

Lemma click_stores_enabled_day_witness :
  isDisabled openProps (value (cell (jan 10))) = false /\
  exists e, In e (datesOf (MArr [mkDate 2024 0 10 9 30])) /\
            sameDay e (value (cell (jan 10))).
Proof.
  apply (click_stores_enabled_day openProps rangeState
           (emit (EvUpdate (MArr [mkDate 2024 0 10 9 30])) rangeState)
           (cell (jan 10)) (MArr [mkDate 2024 0 10 9 30])).
  - repeat constructor; unfold hourOk; lia.
  - repeat constructor; unfold minuteOk; lia.
  - reflexivity.
  - left. reflexivity.
Defined.

(** *** Highlighting *)

Lemma dayKey_ltb_irrefl (a : Z * Z * Z) : dayKey_ltb a a = false.
Proof.
  destruct (dayKey_ltb a a) eqn:E; [|reflexivity].
  pose proof (dayKey_ltb_asym a a E). congruence.
Qed.

Lemma dayKey_ltb_trans (a b c : Z * Z * Z) :
  dayKey_ltb a b = true -> dayKey_ltb b c = true -> dayKey_ltb a c = true.
Proof.
  rewrite !dayKey_ltb_lex.
  destruct a as [[ya ma] da], b as [[yb mb] db], c as [[yc mc] dc]. lia.
Qed.

Lemma dayKey_eqb_refl (a : Z * Z * Z) : dayKey_eqb a a = true.
Proof. now apply dayKey_eqb_eq. Qed.

Lemma dayKey_ltb_neq (a b : Z * Z * Z) :
  dayKey_ltb a b = true -> dayKey_eqb a b = false /\ dayKey_eqb b a = false.
Proof.
  intros H. split.
  - destruct (dayKey_eqb a b) eqn:E; [|reflexivity].
    apply dayKey_eqb_eq in E. subst b. rewrite dayKey_ltb_irrefl in H. discriminate.
  - destruct (dayKey_eqb b a) eqn:E; [|reflexivity].
    apply dayKey_eqb_eq in E. subst b. rewrite dayKey_ltb_irrefl in H. discriminate.
Qed.

(** No day lies strictly between [hi] and [lo] when [lo] is not after [hi]. *)
Lemma dayKey_between_empty (lo hi c : Z * Z * Z) :
  dayKey_ltb hi lo = false -> dayKey_ltb hi c && dayKey_ltb c lo = false.
Proof.
  intros H. destruct (dayKey_ltb hi c) eqn:E1; [|reflexivity].
  destruct (dayKey_ltb c lo) eqn:E2; [|reflexivity].
  pose proof (dayKey_ltb_trans hi c lo E1 E2). congruence.
Qed.

(** X4.  In single mode a click makes the clicked calendar day, and no other,
    the active one; the page moves to its month and year, and no day is
    shaded as part of a range. *)
Theorem single_click_makes_day_active
    (p : CalendarProps) (st : State) (day : ICalendarDay) (h m : Z) :
  range p = false ->
  hours st = Num h -> minutes st = Num m ->
  isDisabled p (value day) = false ->
  exists st',
    dispatch p st (ASelectDate day) = Done st' /\
    internalModelValue st' = MDate (setDateTime (value day) h m) /\
    month st' = getDateMonth (value day) /\ year st' = getDateYear (value day) /\
    isActiveDate p st' day = Done true /\
    (forall c, isActiveDate p st' c = Done (isDateEqual (value c) (value day))) /\
    (forall c, rangeActive st' c = false).
Proof.
  intros Hr Hh Hm Hd.
  assert (E : selectDate p st day
              = Done (autoApplied p
                        (emit (EvUpdate (MDate (setDateTime (value day) h m))) st))).
  { unfold selectDate. rewrite Hd, Hr, Hh, Hm. reflexivity. }
  apply dispatch_selectDate_update_autoApplied in E.
  eexists. split; [exact E|].
  unfold autoApplied. destruct (autoApply p);
    (split; [reflexivity|]); (split; [reflexivity|]); (split; [reflexivity|]);
    unfold isActiveDate; cbn -[isDateEqual]; rewrite Hr; cbn -[isDateEqual];
    (split; [f_equal; now apply isDateEqual_iff|]);
    split; reflexivity.
Qed.

Lemma single_click_makes_day_active_witness :
  exists st',
    dispatch singleProps scalarState (ASelectDate (cell (jan 10))) = Done st' /\
    internalModelValue st' = MDate (mkDate 2024 0 10 9 30) /\
    month st' = 0 /\ year st' = 2024 /\
    isActiveDate singleProps st' (cell (jan 10)) = Done true /\
    (forall c, isActiveDate singleProps st' c = Done (isDateEqual (value c) (jan 10))) /\
    (forall c, rangeActive st' c = false).
Proof.
  exact (single_click_makes_day_active singleProps scalarState (cell (jan 10)) 9 30
           eq_refl eq_refl eq_refl eq_refl).
Defined.

(** X5.  In range mode, after two clicks that start with no endpoint waiting, the
    active days are the two clicked calendar days, and the shaded days are
    those strictly between them, whichever was clicked first. *)
Theorem two_clicks_highlight
    (p : CalendarProps) (st : State) (d1 d2 : ICalendarDay) (h0 h1 m0 m1 : Z) :
  range p = true ->
  pairTimes st h0 h1 m0 m1 ->
  noPendingEndpoint (modelValue st) ->
  isDisabled p (value d1) = false ->
  isDisabled p (value d2) = false ->
  exists st2,
    run p st [ASelectDate d1; ASelectDate d2] = Done st2 /\
    (forall c, isActiveDate p st2 c
               = Done (isDateEqual (value c) (value d1)
                       || isDateEqual (value c) (value d2))) /\
    (forall c, rangeActive st2 c
               = (isDateAfter (value c) (value d1) && isDateBefore (value c) (value d2))
                 || (isDateAfter (value c) (value d2) && isDateBefore (value c) (value d1))).
Proof.
  intros Hrange Ht Hv Hd1 Hd2.
  pose proof (selectDate_first_endpoint p st d1 h0 h1 m0 m1 Ht Hv Hd1) as E1.
  apply dispatch_selectDate_update in E1.
  set (v1 := MArr [setDateTime (value d1) h0 m0]) in E1.
  set (st1 := mapInternalModuleValues (set_internalModelValue v1 (emit (EvUpdate v1) st))) in E1.
  assert (Ht1 : pairTimes st1 h0 h1 m0 m1) by (destruct Ht; split; assumption).
  assert (Hv1 : modelValue st1 = MArr [setDateTime (value d1) h0 m0]) by reflexivity.
  pose proof (selectDate_second_endpoint p st1 d2 _ h0 h1 m0 m1 Ht1 Hv1 Hd2) as E2.
  apply dispatch_selectDate_update_autoApplied in E2.
  rewrite isDateBefore_setDateTime_r in E2.
  match type of E2 with _ = Done ?s => remember s as st2 eqn:Hst2 end.
  assert (Hmv : internalModelValue st2
                = MArr (if isDateBefore (value d2) (value d1)
                        then [setDateTime (value d2) h0 m0; setDateTime (value d1) h1 m1]
                        else [setDateTime (value d1) h0 m0; setDateTime (value d2) h1 m1])).
  { subst st2. rewrite mapInternalModuleValues_value. simpl.
    destruct (isDateBefore (value d2) (value d1)); reflexivity. }
  exists st2. split.
  { unfold run. rewrite E1. cbn [bind]. rewrite E2. reflexivity. }
  clear Hst2 E2. unfold isActiveDate, rangeActive, modelValue. rewrite Hmv.
  unfold isDateBefore, isDateAfter, isDateEqual in *.
  destruct (dayKey_ltb (dayKey (value d2)) (dayKey (value d1))) eqn:Hb;
    cbn -[dayKey_ltb dayKey_eqb dayKey setDateTime];
    rewrite Hrange; cbn -[dayKey_ltb dayKey_eqb dayKey setDateTime];
    rewrite ?setDateTime_dayKey; split; intros c.
  - now rewrite orb_comm.
  - rewrite (dayKey_between_empty (dayKey (value d2)) (dayKey (value d1)))
      by (now apply dayKey_ltb_asym).
    reflexivity.
  - reflexivity.
  - rewrite (dayKey_between_empty (dayKey (value d1)) (dayKey (value d2))) by exact Hb.
    now rewrite orb_false_r.
Qed.

Lemma two_clicks_highlight_witness :
  exists st2,
    run openProps rangeState [ASelectDate (cell (jan 10)); ASelectDate (cell (jan 5))]
      = Done st2 /\
    (forall c, isActiveDate openProps st2 c
               = Done (isDateEqual (value c) (jan 10) || isDateEqual (value c) (jan 5))) /\
    (forall c, rangeActive st2 c
               = (isDateAfter (value c) (jan 10) && isDateBefore (value c) (jan 5))
                 || (isDateAfter (value c) (jan 5) && isDateBefore (value c) (jan 10))).
Proof.
  apply (two_clicks_highlight openProps rangeState (cell (jan 10)) (cell (jan 5)) 9 17 30 45).
  - reflexivity.
  - split; reflexivity.
  - left; reflexivity.
  - reflexivity.
  - reflexivity.
Defined.


(** X6.  In range mode, a day shaded as lying inside the range (or inside the
    hover preview) is never one of the active endpoints, whatever is stored
    and hovered. *)
Theorem shaded_day_is_not_active
    (p : CalendarProps) (st : State) (c : ICalendarDay) :
  range p = true ->
  rangeActive st c = true ->
  isActiveDate p st c = Done false.
Proof.
  intros Hr. unfold rangeActive, isActiveDate, modelValue. rewrite Hr.
  destruct (internalModelValue st) as [|d|[|a [|b l]]];
    cbn -[isDateAfter isDateBefore isDateEqual]; try discriminate.
  - destruct (hoveredDate st) as [hd|]; [|discriminate].
    intros H. f_equal. rewrite orb_false_r.
    unfold isDateAfter, isDateBefore, isDateEqual in *.
    apply orb_true_iff in H. destruct H as [H | H];
      apply andb_true_iff in H; destruct H as [H _];
      now apply dayKey_ltb_neq in H.
  - intros H. f_equal. apply andb_true_iff in H. destruct H as [H1 H2].
    unfold isDateAfter, isDateBefore, isDateEqual in *.
    apply dayKey_ltb_neq in H1. apply dayKey_ltb_neq in H2.
    destruct H1 as [_ ->]. destruct H2 as [-> _]. reflexivity.
Qed.

Definition hoverState : State :=
  mkState (mkDate 2024 0 1 9 30) (Some (jan 20)) 0 2024 (NumArr [9; 17]) (NumArr [30; 45])
          (MArr [mkDate 2024 0 10 9 30]) [].

Lemma shaded_day_is_not_active_witness :
  rangeActive hoverState (cell (jan 15)) = true /\
  isActiveDate openProps hoverState (cell (jan 15)) = Done false.
Proof.
  split; [reflexivity|].
  apply (shaded_day_is_not_active openProps hoverState (cell (jan 15))); reflexivity.
Defined.

(** X7.  The hover preview.  While one endpoint [a] waits, hovering a day shades
    the days strictly between [a] and the hovered day, in whichever order the
    two stand, and neither of the two themselves.  In every other state
    (nothing stored, a single date, an empty or a complete range) the hovered
    day changes nothing in what is shaded.  [setHoverDate] touches no other
    ref. *)
Theorem hover_preview (st : State) (hd c : ICalendarDay) :
  (forall a, modelValue st = MArr [a] ->
     rangeActive (setHoverDate st hd) c
       = (isDateAfter (value c) a && isDateBefore (value c) (value hd))
         || (isDateAfter (value c) (value hd) && isDateBefore (value c) a)) /\
  (forall a, modelValue st = MArr [a] ->
     rangeActive (setHoverDate st hd) hd = false /\
     rangeActive (setHoverDate st hd) (mkDay (text c) a (current c)) = false) /\
  (endpoints (modelValue st) <> 1%nat ->
     rangeActive (setHoverDate st hd) c = rangeActive st c) /\
  setHoverDate st hd
    = mkState (today st) (Some (value hd)) (month st) (year st) (hours st) (minutes st)
              (internalModelValue st) (emitted st).
Proof.
  unfold rangeActive, setHoverDate, modelValue. simpl.
  split; [|split; [|split; [|reflexivity]]].
  - intros a ->. cbn -[isDateAfter isDateBefore]. f_equal. apply andb_comm.
  - intros a ->. cbn -[isDateAfter isDateBefore].
    unfold isDateAfter, isDateBefore. rewrite !dayKey_ltb_irrefl.
    now rewrite !andb_false_r, !andb_false_l.
  - destruct (internalModelValue st) as [|d|[|a [|b l]]]; simpl; try reflexivity.
    intros H. now contradiction H.
Qed.

(** *** The watcher *)

(** X8.  Reading the stored value back is idempotent, and writes month, year,
    hours and minutes only. *)
Theorem mapInternalModuleValues_idempotent (st : State) :
  mapInternalModuleValues (mapInternalModuleValues st) = mapInternalModuleValues st /\
  today (mapInternalModuleValues st) = today st /\
  hoveredDate (mapInternalModuleValues st) = hoveredDate st /\
  internalModelValue (mapInternalModuleValues st) = internalModelValue st /\
  emitted (mapInternalModuleValues st) = emitted st.
Proof.
  destruct st as [t hv mo ye hs ms v evs].
  unfold mapInternalModuleValues, modelValue; simpl.
  destruct v as [|d|[|d0 [|d1 [|d2 l]]]]; repeat split.
Qed.


(** *** Changing the time, at the edges *)

(** X9.  Shapes that do not match make [updateTime] store the new hours or
    minutes in its ref and do nothing else, silently: in range mode with a
    single date stored, and with a range of two stored while hours and minutes
    are not both pairs.  Nothing is emitted and the stored value stays. *)
Theorem updateTime_shape_mismatch_noop
    (p : CalendarProps) (now : Date) (st : State) (v : TimeNum) (isHours : bool) :
  let st1 := if isHours then set_hours v st else set_minutes v st in
  (range p = true /\ (exists d, modelValue st = MDate d)) \/
  ((exists a b, modelValue st = MArr [a; b]) /\
   isNumberArray (hours st1) && isNumberArray (minutes st1) = false) ->
  updateTime p now st v isHours = Done st1 /\
  dispatch p st (AUpdateTime now v isHours) = Done st1.
Proof.
  intros st1 H.
  assert (Hm : modelValue st1 = modelValue st) by (subst st1; now destruct isHours).
  assert (He : emitted st1 = emitted st) by (subst st1; now destruct isHours).
  assert (E : updateTime p now st v isHours = Done st1).
  { unfold updateTime. fold st1. rewrite Hm. unfold handleTimeUpdate.
    destruct H as [[Hr (d & Hd)] | [(a & b & Hd) Hs]]; rewrite Hd; simpl.
    - rewrite Hr. reflexivity.
    - rewrite Hs. now rewrite andb_false_r. }
  split; [exact E|].
  unfold dispatch. rewrite E. cbn [bind]. now rewrite hostSync_quiet.
Qed.

Definition mismatchedState : State :=
  mkState (mkDate 2024 0 1 9 30) None 2 2024 (Num 10) (Num 0)
          (MArr [mkDate 2024 2 5 10 0; mkDate 2024 2 8 10 0]) [].

Lemma updateTime_shape_mismatch_noop_witness :
  updateTime openProps newYearMorning mismatchedState (Num 15) true
    = Done (set_hours (Num 15) mismatchedState) /\
  dispatch openProps mismatchedState (AUpdateTime newYearMorning (Num 15) true)
    = Done (set_hours (Num 15) mismatchedState).
Proof.
  apply (updateTime_shape_mismatch_noop openProps newYearMorning mismatchedState (Num 15) true).
  right. split; [eexists; eexists; reflexivity | reflexivity].
Defined.

(** X10.  With nothing stored, [updateTime] emits nothing unless the time picker
    is configured; with the time picker it builds the value from the current
    date: one date carrying the hour and minute, or in range mode two dates
    carrying the two hours and minutes. *)
Theorem updateTime_without_value
    (p : CalendarProps) (now : Date) (st : State) (v : TimeNum) (isHours : bool) :
  modelValue st = MNull ->
  let st1 := if isHours then set_hours v st else set_minutes v st in
  (timePicker p = false ->
   dispatch p st (AUpdateTime now v isHours) = Done st1) /\
  (timePicker p = true -> range p = false ->
   forall h m, hours st1 = Num h -> minutes st1 = Num m ->
   exists st',
     dispatch p st (AUpdateTime now v isHours) = Done st' /\
     newEvents st st' = [EvUpdate (MDate (setDateTime now h m))] /\
     internalModelValue st' = MDate (setDateTime now h m) /\
     hours st' = Num h /\ minutes st' = Num m) /\
  (timePicker p = true -> range p = true ->
   forall h0 h1 m0 m1, pairTimes st1 h0 h1 m0 m1 ->
   exists st',
     dispatch p st (AUpdateTime now v isHours) = Done st' /\
     newEvents st st' = [EvUpdate (MArr [setDateTime now h0 m0; setDateTime now h1 m1])] /\
     internalModelValue st' = MArr [setDateTime now h0 m0; setDateTime now h1 m1] /\
     hours st' = NumArr [h0; h1] /\ minutes st' = NumArr [m0; m1]).
Proof.
  intros Hv st1.
  assert (Hm : modelValue st1 = MNull) by (subst st1; now destruct isHours).
  assert (He : emitted st1 = emitted st) by (subst st1; now destruct isHours).
  split; [|split].
  - intros Ht. unfold dispatch, updateTime. fold st1. rewrite Hm, Ht. cbn [truthy bind].
    now rewrite hostSync_quiet.
  - intros Ht Hr h m Hh Hmi.
    assert (E : updateTime p now st v isHours
                = Done (emit (EvUpdate (MDate (setDateTime now h m))) st1)).
    { unfold updateTime. fold st1. rewrite Hm, Ht, Hr. cbn [truthy].
      unfold handleTimeUpdate. rewrite Hh, Hmi, Hr. reflexivity. }
    eexists. split.
    { unfold dispatch. rewrite E. cbn [bind].
      rewrite (hostSync_emit_update_from st st1 _ He). reflexivity. }
    split; [|split].
    + apply newEvents_app. rewrite mapInternalModuleValues_emitted. simpl. now rewrite He.
    + now rewrite mapInternalModuleValues_value.
    + split; reflexivity.
  - intros Ht Hr h0 h1 m0 m1 [Hh Hmi].
    assert (E : updateTime p now st v isHours
                = Done (emit (EvUpdate (MArr [setDateTime now h0 m0; setDateTime now h1 m1]))
                          st1)).
    { unfold updateTime. fold st1. rewrite Hm, Ht, Hr. cbn [truthy].
      unfold handleTimeUpdate. rewrite Hh, Hmi. reflexivity. }
    eexists. split.
    { unfold dispatch. rewrite E. cbn [bind].
      rewrite (hostSync_emit_update_from st st1 _ He). reflexivity. }
    split; [|split].
    + apply newEvents_app. rewrite mapInternalModuleValues_emitted. simpl. now rewrite He.
    + now rewrite mapInternalModuleValues_value.
    + split; reflexivity.
Qed.

Definition timePickerProps : CalendarProps :=
  mkProps true None STNone None None (mkFilter []) [1900; 2100] [] false false true.

Lemma updateTime_without_value_witness :
  exists st',
    dispatch timePickerProps rangeState (AUpdateTime newYearMorning (NumArr [8; 18]) true)
      = Done st' /\
    newEvents rangeState st'
      = [EvUpdate (MArr [mkDate 2024 0 1 8 30; mkDate 2024 0 1 18 45])] /\
    internalModelValue st' = MArr [mkDate 2024 0 1 8 30; mkDate 2024 0 1 18 45] /\
    hours st' = NumArr [8; 18] /\ minutes st' = NumArr [30; 45].
Proof.
  apply (proj2 (proj2 (updateTime_without_value timePickerProps newYearMorning rangeState
                         (NumArr [8; 18]) true eq_refl)) eq_refl eq_refl 8 18 30 45).
  split; reflexivity.
Defined.


(** *** Disabling is monotone *)

Lemma isDisabled_true_iff (p : CalendarProps) (date : Date) :
  isDisabled p date = true <->
  afterMax p date \/ beforeMin p date \/ inDisabledList p date \/
  inFilteredMonth p date \/ outsideYearRange p date.
Proof.
  unfold isDisabled, afterMax, beforeMin, inDisabledList, inFilteredMonth,
    outsideYearRange.
  rewrite !orb_true_iff, disabledMonths_includes, existsb_exists,
    num_lt_iff, num_gt_iff.
  split.
  - intros [[[[H|H]|H]|H]|[H|H]]; try tauto.
    + destruct (maxDate p) as [mx|]; [|discriminate]. left; eauto.
    + destruct (minDate p) as [mn|]; [|discriminate]. right; left; eauto.
  - intros [(mx & E & H)|[(mn & E & H)|[H|[H|[H|H]]]]]; try tauto.
    + rewrite E. tauto.
    + rewrite E. tauto.
Qed.

Lemma dayKey_ltb_le_trans (a b c : Z * Z * Z) :
  dayKey_ltb b a = false -> dayKey_ltb b c = true -> dayKey_ltb a c = true.
Proof.
  intros H1 H2. assert (N : ~ dayKey_ltb b a = true) by congruence.
  rewrite dayKey_ltb_lex in *.
  destruct a as [[ya ma] da], b as [[yb mb] db], c as [[yc mc] dc]. lia.
Qed.

Lemma dayKey_ltb_trans_le (a b c : Z * Z * Z) :
  dayKey_ltb a b = true -> dayKey_ltb c b = false -> dayKey_ltb a c = true.
Proof.
  intros H1 H2. assert (N : ~ dayKey_ltb c b = true) by congruence.
  rewrite dayKey_ltb_lex in *.
  destruct a as [[ya ma] da], b as [[yb mb] db], c as [[yc mc] dc]. lia.
Qed.

(** The configuration [p] restricts at least as much as [q]: every bound of
    [q] is present in [p] and no looser, and [p] lists every disabled date
    and excluded month of [q]. *)
Definition atLeastAsStrict (p q : CalendarProps) : Prop :=
  (forall mq, maxDate q = Some mq ->
     exists mp, maxDate p = Some mp /\ isDateAfter mp mq = false) /\
  (forall mq, minDate q = Some mq ->
     exists mp, minDate p = Some mp /\ isDateBefore mp mq = false) /\
  incl (disabledDates q) (disabledDates p) /\
  incl (months (filters q)) (months (filters p)) /\
  (forall lo, idx (yearRange q) 0 = Some lo ->
     exists lo', idx (yearRange p) 0 = Some lo' /\ lo <= lo') /\
  (forall hi, idx (yearRange q) 1 = Some hi ->
     exists hi', idx (yearRange p) 1 = Some hi' /\ hi' <= hi).

(** X11.  Tightening the configuration (an earlier max, a later min, more disabled
    dates or excluded months, a narrower year range) never enables a day
    that was disabled. *)
Theorem isDisabled_monotone (p q : CalendarProps) (date : Date) :
  atLeastAsStrict p q ->
  isDisabled q date = true -> isDisabled p date = true.
Proof.
  intros (Hmax & Hmin & Hdd & Hmo & Hlo & Hhi).
  rewrite !isDisabled_true_iff.
  intros [(mq & E & H)|[(mq & E & H)|[(dd & Hin & H)|[H|[(lo & E & H)|(hi & E & H)]]]]].
  - left. destruct (Hmax mq E) as (mp & Ep & Hle). exists mp. split; [exact Ep|].
    unfold isDateAfter in *. exact (dayKey_ltb_le_trans _ _ _ Hle H).
  - right; left. destruct (Hmin mq E) as (mp & Ep & Hle). exists mp. split; [exact Ep|].
    unfold isDateBefore in *. exact (dayKey_ltb_trans_le _ _ _ H Hle).
  - right; right; left. exists dd. split; [apply Hdd; exact Hin | exact H].
  - right; right; right; left. apply Hmo. exact H.
  - right; right; right; right; left.
    destruct (Hlo lo E) as (lo' & E' & Hle). exists lo'. split; [exact E' | lia].
  - right; right; right; right; right.
    destruct (Hhi hi E) as (hi' & E' & Hle). exists hi'. split; [exact E' | lia].
Qed.

Definition strictProps : CalendarProps :=
  mkProps true None STNone (Some (mkDate 2024 0 15 0 0)) None
          (mkFilter [5]) [2000; 2050] [mkDate 2024 0 3 0 0] true false false.

Lemma isDisabled_monotone_witness :
  isDisabled strictProps day_2024_03_05 = true.
Proof.
  apply (isDisabled_monotone strictProps closedProps day_2024_03_05); [|reflexivity].
  repeat split.
  - intros mq [= <-]. eexists. split; reflexivity.
  - intros mq [=].
  - intros x [].
  - intros x [].
  - intros lo [= <-]. eexists. split; [reflexivity | lia].
  - intros hi [= <-]. eexists. split; [reflexivity | lia].
Defined.

(** *** Changing the page *)

(** X12.  Without the month picker [updateMonthYear] sets the month or the year
    it is given and nothing else; with the month picker it also emits the
    stored date (the current date when nothing is stored) with its month and
    year replaced by the ones now shown, so that after the host has stored it
    the value and the page agree. *)
Theorem updateMonthYear_page_and_value
    (p : CalendarProps) (now : Date) (st : State) (v : Z) (isMonth : bool) :
  let m' := if isMonth then v else month st in
  let y' := if isMonth then year st else v in
  (monthPicker p = false ->
   dispatch p st (AUpdateMonthYear now v isMonth)
     = Done (mkState (today st) (hoveredDate st) m' y' (hours st) (minutes st)
                     (internalModelValue st) (emitted st))) /\
  (monthPicker p = true ->
   forall base,
   (modelValue st = MNull /\ base = now) \/ modelValue st = MDate base ->
   exists st',
     dispatch p st (AUpdateMonthYear now v isMonth) = Done st' /\
     newEvents st st' = [EvUpdate (MDate (setDateMonthOrYear base m' y'))] /\
     internalModelValue st' = MDate (setDateMonthOrYear base m' y') /\
     month st' = m' /\ year st' = y' /\
     getDateMonth (setDateMonthOrYear base m' y') = m' /\
     getDateYear (setDateMonthOrYear base m' y') = y').
Proof.
  intros m' y'. split.
  - intros Hp. unfold dispatch, updateMonthYear. rewrite Hp. cbn [bind].
    rewrite hostSync_quiet by (now destruct isMonth).
    subst m' y'. now destruct isMonth.
  - intros Hp base Hb.
    set (st1 := if isMonth then set_month v st else set_year v st).
    assert (He : emitted st1 = emitted st) by (subst st1; now destruct isMonth).
    assert (Hmy : month st1 = m' /\ year st1 = y')
      by (subst st1 m' y'; now destruct isMonth).
    destruct Hmy as [Hmo Hye].
    assert (E : updateMonthYear p now st v isMonth
                = Done (emit (EvUpdate (MDate (setDateMonthOrYear base m' y'))) st1)).
    { unfold updateMonthYear. fold st1. rewrite Hp, Hmo, Hye.
      assert (Hm : modelValue st1 = modelValue st) by (subst st1; now destruct isMonth).
      rewrite Hm. destruct Hb as [[-> ->] | ->]; reflexivity. }
    eexists. split.
    { unfold dispatch. rewrite E. cbn [bind].
      rewrite (hostSync_emit_update_from st st1 _ He). reflexivity. }
    split; [|split].
    + apply newEvents_app. rewrite mapInternalModuleValues_emitted. simpl. now rewrite He.
    + now rewrite mapInternalModuleValues_value.
    + repeat split.
Qed.

Definition monthPickerProps : CalendarProps :=
  mkProps false None STNone None None (mkFilter []) [1900; 2100] [] false true false.

Lemma updateMonthYear_page_and_value_witness :
  exists st',
    dispatch monthPickerProps singleState (AUpdateMonthYear newYearMorning 7 true) = Done st' /\
    newEvents singleState st' = [EvUpdate (MDate (mkDate 2024 7 5 10 0))] /\
    internalModelValue st' = MDate (mkDate 2024 7 5 10 0) /\
    month st' = 7 /\ year st' = 2024 /\
    getDateMonth (mkDate 2024 7 5 10 0) = 7 /\
    getDateYear (mkDate 2024 7 5 10 0) = 2024.
Proof.
  apply (proj2 (updateMonthYear_page_and_value monthPickerProps newYearMorning
                  singleState 7 true) eq_refl (mkDate 2024 2 5 10 0)).
  right. reflexivity.
Defined.

(** *** The week number of a row *)

(** X13.  [getWeekDay] answers the empty string exactly when no day of the row
    belongs to the displayed month, and otherwise the week number of the
    first day that does, whatever precedes it. *)
Theorem getWeekDay_first_current (getWeekNumber : Date -> Z) (days : list ICalendarDay) :
  (getWeekDay getWeekNumber days = WeekText "" <->
   Forall (fun d => current d = false) days) /\
  (forall pre d post,
     days = pre ++ d :: post ->
     Forall (fun x => current x = false) pre ->
     current d = true ->
     getWeekDay getWeekNumber days = WeekNumber (getWeekNumber (value d))).
Proof.
  unfold getWeekDay. split.
  - destruct (find (fun day => current day) days) as [x|] eqn:E.
    + split; [discriminate|]. intros H. apply find_some in E. destruct E as [Hin Hc].
      rewrite Forall_forall in H. rewrite (H x Hin) in Hc. discriminate.
    + split; [|reflexivity]. intros _. apply Forall_forall. intros x Hin.
      pose proof (find_none _ _ E x Hin) as H. exact H.
  - intros pre d post -> Hpre Hd.
    induction Hpre as [|x pre Hx _ IH]; simpl.
    + now rewrite Hd.
    + rewrite Hx. exact IH.
Qed.


(** *** Mounting *)

(** X14.  What the refs hold once the engine is mounted.  A stored date wins over
    the seeds: month, year, hour and minute are read from it.  With nothing
    stored the page is the start date's when there is one and the current
    one otherwise, and the time is the start time's when there is one (a
    single time, or a pair of two) and the current time otherwise, as a pair
    in range mode. *)
Theorem mount_seeds (p : CalendarProps) (now : Date) :
  (forall d,
     onMounted p (useCalendar p now (MDate d))
       = Done (mkState now None (getDateMonth d) (getDateYear d)
                       (Num (getDateHours d)) (Num (getDateMinutes d)) (MDate d) [])) /\
  (forall a b,
     onMounted p (useCalendar p now (MArr [a; b]))
       = Done (mkState now None (getDateMonth a) (getDateYear a)
                       (NumArr [getDateHours a; getDateHours b])
                       (NumArr [getDateMinutes a; getDateMinutes b]) (MArr [a; b]) [])) /\
  (forall st,
     onMounted p (useCalendar p now MNull) = Done st ->
     let page := match startDate p with Some sd => sd | None => now end in
     month st = getDateMonth page /\ year st = getDateYear page /\
     internalModelValue st = MNull /\ emitted st = [] /\
     match startTime p with
     | STNone =>
         hours st = (if range p then NumArr [getDateHours now; getDateHours now]
                     else Num (getDateHours now)) /\
         minutes st = (if range p then NumArr [getDateMinutes now; getDateMinutes now]
                       else Num (getDateMinutes now))
     | STOne t => hours st = Num (tvHours t) /\ minutes st = Num (tvMinutes t)
     | STArr l =>
         exists t0 t1, l = [t0; t1] /\
           hours st = NumArr [tvHours t0; tvHours t1] /\
           minutes st = NumArr [tvMinutes t0; tvMinutes t1]
     end) /\
  (match startTime p with STArr l => List.length l = 2%nat | _ => True end ->
   exists st, onMounted p (useCalendar p now MNull) = Done st).
Proof.
  split; [|split; [|split]].
  - intros d. reflexivity.
  - intros a b. reflexivity.
  - intros st. unfold onMounted, assignStartTime. cbn -[getDateMonth getDateYear].
    destruct (startTime p) as [|t|[|t0 [|t1 [|t2 l]]]]; cbn;
      try (intros [=]; fail); intros [= <-];
      destruct (startDate p); cbn; repeat split; eauto.
  - unfold onMounted, assignStartTime. cbn.
    destruct (startTime p) as [|t|[|t0 [|t1 [|t2 l]]]]; cbn;
      try (intros [=]; fail); intros _; eauto.
Qed.


Definition seededProps : CalendarProps :=
  mkProps true (Some (mkDate 2025 5 1 0 0)) (STArr [mkTime 8 0; mkTime 18 30])
          None None (mkFilter []) [1900; 2100] [] false false false.

Lemma mount_seeds_witness :
  exists st,
    onMounted seededProps (useCalendar seededProps newYearMorning MNull) = Done st /\
    month st = 5 /\ year st = 2025 /\
    hours st = NumArr [8; 18] /\ minutes st = NumArr [0; 30].
Proof.
  pose proof (mount_seeds seededProps newYearMorning) as (_ & _ & H & _).
  eexists. split; [reflexivity|].
  specialize (H _ eq_refl). cbn in H.
  destruct H as (Hm & Hy & _ & _ & t0 & t1 & E & Hh & Hmi).
  injection E as <- <-.
  repeat split; assumption.
Defined.


End CalendarExtra.

(** ** Further properties of the menu positioning engine *)

Module PositionExtra.

Import Position PositionSpec.
Open Scope Q_scope.

Lemma ltb_true_iff (a b : Q) : ltb a b = true <-> a < b.
Proof. unfold ltb. fold (gtb b a). apply gtb_true_iff. Qed.

Lemma ltb_false_iff (a b : Q) : ltb a b = false <-> b <= a.
Proof. unfold ltb. fold (gtb b a). apply gtb_false_iff. Qed.

(** The event every recalculation ends with. *)
Definition recalculated : string := "recalculate-position".

(** [setMenuPosition(false)] never reaches [recalculatePosition]. *)
Lemma setMenuPosition_false (env : Env) (props : AllPropsType) (st : State) :
  setMenuPosition env props false st
  = setMenuPosition_with (fun s => s) env props false st.
Proof. reflexivity. Qed.

Lemma setPositioning_emitted (props : AllPropsType) (l w : Q) (st : State) :
  emitted (setPositioning props l w st) = emitted st.
Proof. unfold setPositioning. destruct (propPosition props); reflexivity. Qed.

Lemma setPositioning_position (props : AllPropsType) (l w : Q) (st : State) :
  position (menuPosition (setPositioning props l w st)) = position (menuPosition st).
Proof. unfold setPositioning. destruct (propPosition props); reflexivity. Qed.

Lemma setMenuPosition_false_emitted (env : Env) (props : AllPropsType) (st : State) :
  emitted (setMenuPosition env props false st) = emitted st.
Proof.
  unfold setMenuPosition, setMenuPosition_with.
  destruct (inline props); [reflexivity|]. cbn [negb].
  destruct (centered props); [reflexivity|].
  destruct (altPosition props) as [b|f]; [|reflexivity].
  destruct (inputRef env) as [e|]; [|reflexivity].
  destruct (if altPosition_truthy props then getOffsetAlt e else getOffset env e).
  cbn [andb]. now rewrite setPositioning_emitted.
Qed.

Lemma setMenuPosition_false_openOnTop (env : Env) (props : AllPropsType) (st : State) :
  openOnTop (setMenuPosition env props false st) = openOnTop st.
Proof.
  unfold setMenuPosition, setMenuPosition_with.
  destruct (inline props); [reflexivity|]. cbn [negb].
  destruct (centered props); [reflexivity|].
  destruct (altPosition props) as [b|f]; [|reflexivity].
  destruct (inputRef env) as [e|]; [|reflexivity].
  destruct (if altPosition_truthy props then getOffsetAlt e else getOffset env e).
  cbn [andb]. now rewrite setPositioning_openOnTop.
Qed.

(** *** The vertical decision *)

(** X15.  [positionTopBottom] opens the panel above the anchor exactly when the
    panel and the anchor together need more than the free space below and the
    space above is at least the free space below.  Above, [top] is the anchor
    offset minus the panel height minus the configured offset and nothing
    else moves; otherwise the result is the plain placement of
    [setMenuPosition(false)] with [openOnTop] cleared. *)
Theorem positionTopBottom_decision
    (env : Env) (props : AllPropsType)
    (height inputHeight freeSpaceBottom anchorTop offs : Q) (st : State) :
  let st' := positionTopBottom env props height inputHeight freeSpaceBottom
                               anchorTop offs st in
  (openOnTop st' = true <->
   freeSpaceBottom < height + inputHeight /\ freeSpaceBottom <= anchorTop) /\
  (openOnTop st' = true ->
   st' = set_openOnTop true (set_top (Px (offs - height - offset props)) st)) /\
  (openOnTop st' = false ->
   st' = set_openOnTop false (setMenuPosition env props false st)).
Proof.
  intros st'. subst st'. unfold positionTopBottom. rewrite <- setMenuPosition_false.
  destruct (gtb (height + inputHeight) anchorTop) eqn:E1;
  destruct (gtb (height + inputHeight) freeSpaceBottom) eqn:E2;
  cbn [andb].
  - destruct (ltb anchorTop freeSpaceBottom) eqn:E3; cbn [openOnTop set_openOnTop];
      (split; [|split; intros H; try discriminate; reflexivity]);
      rewrite ?gtb_true_iff, ?ltb_true_iff, ?ltb_false_iff in *.
    + split; [discriminate|]. intros [_ H]. exfalso. exact (Qlt_not_le _ _ E3 H).
    + split; [auto|reflexivity].
  - cbn [openOnTop set_openOnTop].
    (split; [|split; intros H; try discriminate; reflexivity]).
    rewrite ?gtb_true_iff, ?gtb_false_iff in *.
    split; [discriminate|]. intros [H _]. exfalso. exact (Qlt_not_le _ _ H E2).
  - cbn [openOnTop set_openOnTop].
    (split; [|split; intros H; try discriminate; reflexivity]).
    rewrite ?gtb_true_iff, ?gtb_false_iff in *.
    split; [|reflexivity]. intros _. split; [exact E2|].
    apply Qlt_le_weak. exact (Qlt_le_trans _ _ _ E2 E1).
  - cbn [openOnTop set_openOnTop].
    (split; [|split; intros H; try discriminate; reflexivity]).
    rewrite ?gtb_true_iff, ?gtb_false_iff in *.
    split; [discriminate|]. intros [H _]. exfalso. exact (Qlt_not_le _ _ H E2).
Qed.

Lemma positionTopBottom_emitted
    (env : Env) (props : AllPropsType) (h ih fsb t offs : Q) (st : State) :
  emitted (positionTopBottom env props h ih fsb t offs st) = emitted st.
Proof.
  unfold positionTopBottom. rewrite <- setMenuPosition_false.
  repeat match goal with
  | |- context [if ?b then _ else _] => destruct b
  end; cbn [emitted set_openOnTop set_top];
  try reflexivity; apply setMenuPosition_false_emitted.
Qed.

(** *** Events *)

(** [setMenuPosition(true)] recalculates when the panel is not inline, not
    centered, not placed by a custom function, the anchor is mounted and
    automatic positioning is on. *)
Definition recalculates (env : Env) (props : AllPropsType) : bool :=
  negb (inline props) && negb (centered props)
  && match altPosition props with AltFlag _ => true | AltFn _ => false end
  && match inputRef env with Some _ => true | None => false end
  && autoPosition props.

(** X16.  [recalculatePosition] emits 'recalculate-position' exactly once, whether
    or not it could measure anything; [setInitialPosition] and
    [setMenuPosition(false)] emit nothing; [setMenuPosition(true)] emits the
    one event of the recalculation it triggers, and nothing when it triggers
    none. *)
Theorem positioning_events (env : Env) (props : AllPropsType) (st : State) :
  emitted (recalculatePosition env props st) = emitted st ++ [recalculated] /\
  emitted (setInitialPosition env props st) = emitted st /\
  emitted (setMenuPosition env props false st) = emitted st /\
  emitted (setMenuPosition env props true st)
    = emitted st ++ (if recalculates env props then [recalculated] else []).
Proof.
  assert (R : forall s, emitted (recalculatePosition env props s)
                        = emitted s ++ [recalculated]).
  { intros s. unfold recalculatePosition. cbn [emitted emit]. f_equal.
    destruct (inputRef env) as [el|]; [|reflexivity].
    destruct (autoPosition props && negb (inline props)); [|reflexivity].
    destruct (if altPosition_truthy props then getOffsetAlt el else getOffset env el).
    destruct (menuRef env) as [m|]; [|reflexivity].
    repeat match goal with
    | |- context [if ?b then _ else _] => destruct b
    end; cbn [emitted setPositionLeft setPositionRight set_transform set_left];
    apply positionTopBottom_emitted. }
  split; [apply R|]. split; [|split; [apply setMenuPosition_false_emitted|]].
  - unfold setInitialPosition. destruct (inputRef env) as [el|]; [|reflexivity].
    destruct (if altPosition_truthy props then getOffsetAlt el else getOffset env el).
    now rewrite setPositioning_emitted.
  - unfold setMenuPosition, setMenuPosition_with, recalculates.
    destruct (inline props); [now rewrite app_nil_r|]. cbn [negb andb].
    destruct (centered props); [now rewrite app_nil_r|]. cbn [negb andb].
    destruct (altPosition props) as [b|f]; [|now rewrite app_nil_r].
    destruct (inputRef env) as [e|]; [|now rewrite app_nil_r]. cbn [andb].
    destruct (if altPosition_truthy props then getOffsetAlt e else getOffset env e).
    destruct (autoPosition props).
    + rewrite R. now rewrite setPositioning_emitted.
    + rewrite setPositioning_emitted. now rewrite app_nil_r.
Qed.

(** *** Missing geometry *)

(** X17.  Without an anchor, without a mounted panel, with automatic positioning
    off or in inline mode, [recalculatePosition] leaves the placement alone
    and only emits its event. *)
Theorem recalculatePosition_guarded (env : Env) (props : AllPropsType) (st : State) :
  inputRef env = None \/ menuRef env = None \/
  autoPosition props = false \/ inline props = true ->
  recalculatePosition env props st = emit recalculated st.
Proof.
  intros H. unfold recalculatePosition. f_equal.
  destruct (inputRef env) as [el|]; [|reflexivity].
  destruct H as [H | [H | [H | H]]]; try discriminate.
  - rewrite H. destruct (autoPosition props && negb (inline props)); [|reflexivity].
    now destruct (if altPosition_truthy props then getOffsetAlt el else getOffset env el).
  - now rewrite H.
  - rewrite H. now rewrite andb_false_r.
Qed.

Definition unmountedEnv : Env := mkEnv 0 0 800 1200 (Some lowAnchor) None.

Lemma recalculatePosition_guarded_witness :
  recalculatePosition unmountedEnv leftProps usePosition = emit recalculated usePosition.
Proof.
  apply (recalculatePosition_guarded unmountedEnv leftProps usePosition).
  right; left; reflexivity.
Defined.

(** *** The horizontal correction *)






(** *** The vertical side after a recalculation *)

Lemma positionTopBottom_below
    (env : Env) (props : AllPropsType) (h ih fsb t offs : Q) (st : State) :
  h + ih <= fsb \/ (fsb < h + ih /\ t < fsb) ->
  positionTopBottom env props h ih fsb t offs st
  = set_openOnTop false (setMenuPosition env props false st).
Proof.
  intros H. unfold positionTopBottom. rewrite <- setMenuPosition_false.
  destruct H as [H | [H1 H2]].
  - apply gtb_false_iff in H. rewrite H. rewrite andb_false_r. reflexivity.
  - assert (H3 : t < h + ih) by exact (Qlt_trans _ _ _ H2 H1).
    apply gtb_true_iff in H1, H3. apply ltb_true_iff in H2.
    rewrite H1, H3, H2. reflexivity.
Qed.

Lemma positionTopBottom_above
    (env : Env) (props : AllPropsType) (h ih fsb t offs : Q) (st : State) :
  fsb < h + ih -> fsb <= t ->
  positionTopBottom env props h ih fsb t offs st
  = set_openOnTop true (set_top (Px (offs - h - offset props)) st).
Proof.
  intros H1 H2. unfold positionTopBottom.
  apply gtb_true_iff in H1. apply ltb_false_iff in H2. rewrite H1, H2.
  destruct (gtb (h + ih) t); reflexivity.
Qed.

(** The plain placement below the anchor. *)
Lemma setMenuPosition_false_top
    (env : Env) (props : AllPropsType) (st : State) (el : HTMLElement) (b : bool) :
  inputRef env = Some el -> inline props = false -> centered props = false ->
  altPosition props = AltFlag b ->
  top (menuPosition (setMenuPosition env props false st))
  = Px (rectHeight (getBoundingClientRect el) + fst (anchorOffset env props el)
        + offset props).
Proof.
  intros Hel Hin Hc Ha. unfold setMenuPosition, setMenuPosition_with.
  rewrite Hin, Hc, Ha, Hel. cbn [negb andb]. fold (anchorOffset env props el).
  destruct (anchorOffset env props el) as [o l]. cbn [fst].
  now rewrite setPositioning_top.
Qed.

(** X19.  With anchor and panel mounted, automatic positioning on and the built-in
    placement in use, a recalculation puts the panel below the anchor, at the
    anchor's offset plus its height plus the configured offset, when it fits
    below or when there is less room above than below; and above the anchor,
    at the anchor's offset minus the panel's height minus the configured
    offset, when it does not fit below and there is at least as much room
    above. *)
Theorem recalculatePosition_vertical
    (env : Env) (props : AllPropsType) (st : State) (el menuEl : HTMLElement) (b : bool) :
  inputRef env = Some el -> menuRef env = Some menuEl ->
  autoPosition props = true -> inline props = false ->
  centered props = false -> altPosition props = AltFlag b ->
  let rect := getBoundingClientRect el in
  let panel := rectHeight (getBoundingClientRect menuEl) in
  let offs := fst (anchorOffset env props el) in
  let freeSpaceBottom := innerHeight env - rectTop rect - rectHeight rect in
  let st' := recalculatePosition env props st in
  (panel + rectHeight rect <= freeSpaceBottom \/
   (freeSpaceBottom < panel + rectHeight rect /\ rectTop rect < freeSpaceBottom) ->
   top (menuPosition st') = Px (rectHeight rect + offs + offset props) /\
   openOnTop st' = false) /\
  (freeSpaceBottom < panel + rectHeight rect -> freeSpaceBottom <= rectTop rect ->
   top (menuPosition st') = Px (offs - panel - offset props) /\
   openOnTop st' = true).
Proof.
  intros Hel Hmenu Hauto Hinline Hc Ha rect panel offs fsb st'.
  assert (E : top (menuPosition st')
              = top (menuPosition (positionTopBottom env props panel (rectHeight rect)
                                     fsb (rectTop rect) offs st)) /\
              openOnTop st'
              = openOnTop (positionTopBottom env props panel (rectHeight rect)
                             fsb (rectTop rect) offs st)).
  { subst st'. unfold recalculatePosition. rewrite Hel, Hmenu, Hauto, Hinline.
    cbn [negb andb]. fold (anchorOffset env props el). subst offs.
    destruct (anchorOffset env props el) as [o l]. cbn [fst].
    fold rect. fold panel. fold fsb.
    destruct (ltb (rectLeft (getBoundingClientRect menuEl)) 0); [split; reflexivity|].
    destruct (gtb (rectRight (getBoundingClientRect menuEl)) (clientWidth env));
      split; reflexivity. }
  destruct E as [-> ->]. split.
  - intros H. rewrite (positionTopBottom_below env props _ _ _ _ _ st H).
    cbn [menuPosition set_openOnTop openOnTop]. split; [|reflexivity].
    exact (setMenuPosition_false_top env props st el b Hel Hinline Hc Ha).
  - intros H1 H2. rewrite (positionTopBottom_above env props _ _ _ _ _ st H1 H2).
    split; reflexivity.
Qed.

Definition tallPanel : HTMLElement :=
  mkEl (mkRect 40 300 300 300 340) 40 300 0 0 None.

Definition lowMountedEnv : Env := mkEnv 0 0 800 1200 (Some lowAnchor) (Some tallPanel).

Lemma recalculatePosition_vertical_witness :
  top (menuPosition (recalculatePosition lowMountedEnv leftProps usePosition))
    = Px (700 + 0 - 300 - 10) /\
  openOnTop (recalculatePosition lowMountedEnv leftProps usePosition) = true.
Proof.
  apply (proj2 (recalculatePosition_vertical lowMountedEnv leftProps usePosition
                  lowAnchor tallPanel false eq_refl eq_refl eq_refl eq_refl
                  eq_refl eq_refl)).
  - reflexivity.
  - discriminate.
Defined.


(** *** Repeating a placement *)

Ltac split_conditions :=
  repeat match goal with
  | |- context [if ?b then _ else _] => destruct b
  | |- context [match ?x with (_, _) => _ end] => destruct x
  end.

Lemma setPositioning_style (props : AllPropsType) (l w : Q) (s s' : State) :
  top (menuPosition s) = top (menuPosition s') ->
  position (menuPosition s) = position (menuPosition s') ->
  menuPosition (setPositioning props l w s) = menuPosition (setPositioning props l w s').
Proof.
  destruct s as [[t1 l1 tr1 po1] o1 e1], s' as [[t2 l2 tr2 po2] o2 e2]; simpl.
  intros -> ->. unfold setPositioning. destruct (propPosition props); reflexivity.
Qed.

(** The plain placement overwrites [top], [left] and [transform], or the
    whole descriptor, or nothing: its result depends on the descriptor it
    starts from at most through [position]. *)
Lemma setMenuPosition_false_style (env : Env) (props : AllPropsType) (s s' : State) :
  menuPosition s = menuPosition s' ->
  menuPosition (setMenuPosition env props false s)
  = menuPosition (setMenuPosition env props false s').
Proof.
  intros H. unfold setMenuPosition, setMenuPosition_with.
  destruct (inline props); [exact H|]. cbn [negb].
  destruct (centered props); [reflexivity|].
  destruct (altPosition props) as [b|f]; [|reflexivity].
  destruct (inputRef env) as [e|]; [|exact H].
  destruct (if altPosition_truthy props then getOffsetAlt e else getOffset env e).
  cbn [andb]. apply setPositioning_style; [reflexivity|]. simpl. now rewrite H.
Qed.

Lemma positionTopBottom_style
    (env : Env) (props : AllPropsType) (h ih fsb t offs : Q) (s s' : State) :
  menuPosition s = menuPosition s' ->
  menuPosition (positionTopBottom env props h ih fsb t offs s)
  = menuPosition (positionTopBottom env props h ih fsb t offs s').
Proof.
  intros H. unfold positionTopBottom. rewrite <- !setMenuPosition_false.
  split_conditions; cbn [menuPosition set_openOnTop];
    try (now apply setMenuPosition_false_style);
    unfold set_top; cbn [menuPosition]; now rewrite H.
Qed.

Lemma positionTopBottom_openOnTop
    (env : Env) (props : AllPropsType) (h ih fsb t offs : Q) (s s' : State) :
  openOnTop (positionTopBottom env props h ih fsb t offs s)
  = openOnTop (positionTopBottom env props h ih fsb t offs s').
Proof. unfold positionTopBottom. split_conditions; reflexivity. Qed.

Lemma recalculatePosition_style (env : Env) (props : AllPropsType) (s s' : State) :
  menuPosition s = menuPosition s' ->
  menuPosition (recalculatePosition env props s)
  = menuPosition (recalculatePosition env props s').
Proof.
  intros H. unfold recalculatePosition. cbn [emit menuPosition].
  destruct (inputRef env) as [el|]; [|exact H].
  destruct (autoPosition props && negb (inline props)); [|exact H].
  destruct (if altPosition_truthy props then getOffsetAlt el else getOffset env el)
    as [o l].
  destruct (menuRef env) as [m|]; [|exact H].
  pose proof (positionTopBottom_style env props
                (rectHeight (getBoundingClientRect m))
                (rectHeight (getBoundingClientRect el))
                (innerHeight env - rectTop (getBoundingClientRect el)
                 - rectHeight (getBoundingClientRect el))
                (rectTop (getBoundingClientRect el)) o s s' H) as E.
  destruct (ltb (rectLeft (getBoundingClientRect m)) 0);
    [|destruct (gtb (rectRight (getBoundingClientRect m)) (clientWidth env))];
    unfold setPositionLeft, setPositionRight, set_transform, set_left;
    cbn [menuPosition]; now rewrite ?E.
Qed.

(** A recalculation either keeps [openOnTop] or sets it to a value that
    does not depend on the state. *)
Lemma recalculatePosition_openOnTop (env : Env) (props : AllPropsType) :
  (forall s, openOnTop (recalculatePosition env props s) = openOnTop s) \/
  (exists c, forall s, openOnTop (recalculatePosition env props s) = c).
Proof.
  unfold recalculatePosition. cbn [emit openOnTop].
  destruct (inputRef env) as [el|]; [|now left].
  destruct (autoPosition props && negb (inline props)); [|now left].
  destruct (if altPosition_truthy props then getOffsetAlt el else getOffset env el)
    as [o l].
  destruct (menuRef env) as [m|]; [|now left].
  right.
  exists (openOnTop (positionTopBottom env props
                       (rectHeight (getBoundingClientRect m))
                       (rectHeight (getBoundingClientRect el))
                       (innerHeight env - rectTop (getBoundingClientRect el)
                        - rectHeight (getBoundingClientRect el))
                       (rectTop (getBoundingClientRect el)) o usePosition)).
  intros s.
  destruct (ltb (rectLeft (getBoundingClientRect m)) 0);
    [|destruct (gtb (rectRight (getBoundingClientRect m)) (clientWidth env))];
    cbn [openOnTop setPositionLeft setPositionRight set_transform set_left];
    apply positionTopBottom_openOnTop.
Qed.

Lemma setMenuPosition_false_position
    (env : Env) (props : AllPropsType) (b : bool) (s : State) :
  altPosition props = AltFlag b -> centered props = false ->
  position (menuPosition (setMenuPosition env props false s))
  = position (menuPosition s).
Proof.
  intros Ha Hc. unfold setMenuPosition, setMenuPosition_with. rewrite Ha, Hc.
  destruct (inline props); [reflexivity|]. cbn [negb].
  destruct (inputRef env) as [e|]; [|reflexivity].
  destruct (if altPosition_truthy props then getOffsetAlt e else getOffset env e).
  cbn [andb]. now rewrite setPositioning_position.
Qed.

Lemma recalculatePosition_position
    (env : Env) (props : AllPropsType) (b : bool) (s : State) :
  altPosition props = AltFlag b -> centered props = false ->
  position (menuPosition (recalculatePosition env props s))
  = position (menuPosition s).
Proof.
  intros Ha Hc. unfold recalculatePosition. cbn [emit menuPosition].
  destruct (inputRef env) as [el|]; [|reflexivity].
  destruct (autoPosition props && negb (inline props)); [|reflexivity].
  destruct (if altPosition_truthy props then getOffsetAlt el else getOffset env el).
  destruct (menuRef env) as [m|]; [|reflexivity].
  assert (P : forall h i f t o,
            position (menuPosition (positionTopBottom env props h i f t o s))
            = position (menuPosition s)).
  { intros h i f t o. unfold positionTopBottom. rewrite <- setMenuPosition_false.
    split_conditions; cbn [menuPosition set_openOnTop set_top position];
      try reflexivity; now apply (setMenuPosition_false_position env props b). }
  split_conditions;
    cbn [menuPosition setPositionLeft setPositionRight set_transform set_left position];
    apply P.
Qed.

(** X20.  Calling [setMenuPosition] twice in a row, with the geometry and the
    configuration unchanged, yields the same style descriptor and the same
    [openOnTop] as calling it once. *)
Theorem setMenuPosition_idempotent
    (env : Env) (props : AllPropsType) (recalculate : bool) (st : State) :
  let once := setMenuPosition env props recalculate st in
  let twice := setMenuPosition env props recalculate once in
  menuPosition twice = menuPosition once /\ openOnTop twice = openOnTop once.
Proof.
  cbv zeta. unfold setMenuPosition, setMenuPosition_with.
  destruct (inline props) eqn:Hin; [split; reflexivity|]. cbn [negb].
  destruct (centered props) eqn:Hc; [split; reflexivity|].
  destruct (altPosition props) as [b|f] eqn:Ha; [|split; reflexivity].
  destruct (inputRef env) as [e|] eqn:He; [|split; reflexivity].
  destruct (if altPosition_truthy props then getOffsetAlt e else getOffset env e)
    as [o l].
  set (w := rectWidth (getBoundingClientRect e)).
  set (x := Px (rectHeight (getBoundingClientRect e) + o + offset props)).
  assert (B : forall s s',
            position (menuPosition s) = position (menuPosition s') ->
            menuPosition (setPositioning props l w (set_top x s))
            = menuPosition (setPositioning props l w (set_top x s'))).
  { intros s s' H. apply setPositioning_style; [reflexivity|exact H]. }
  assert (Bp : forall s, position (menuPosition (setPositioning props l w (set_top x s)))
                         = position (menuPosition s)).
  { intros s. now rewrite setPositioning_position. }
  assert (Bo : forall s, openOnTop (setPositioning props l w (set_top x s)) = openOnTop s).
  { intros s. now rewrite setPositioning_openOnTop. }
  destruct (recalculate && autoPosition props).
  - split.
    + apply recalculatePosition_style. apply B.
      now rewrite (recalculatePosition_position env props b _ Ha Hc), Bp.
    + destruct (recalculatePosition_openOnTop env props) as [K | (c & K)].
      * now rewrite !K, !Bo, K, Bo.
      * now rewrite !K.
  - split; [apply B; apply Bp | now rewrite !Bo].
Qed.

(** *** The [position] property *)

(** X21.  Only [teleportCenter] and a custom positioning function write the
    [position] property of the style descriptor.  With the built-in
    placement and centered mode off, [setMenuPosition], [recalculatePosition]
    and [setInitialPosition] leave it as it is; in particular the [fixed] that
    centered mode has set stays after centered mode is switched off. *)
Theorem position_property_kept
    (env : Env) (props : AllPropsType) (recalculate b : bool) (st : State) :
  altPosition props = AltFlag b -> centered props = false ->
  position (menuPosition (setMenuPosition env props recalculate st))
    = position (menuPosition st) /\
  position (menuPosition (recalculatePosition env props st))
    = position (menuPosition st) /\
  position (menuPosition (setInitialPosition env props st))
    = position (menuPosition st) /\
  position (menuPosition (setMenuPosition env props recalculate (teleportCenter st)))
    = Some "fixed"%string.
Proof.
  intros Ha Hc.
  assert (M : forall s, position (menuPosition (setMenuPosition env props recalculate s))
                        = position (menuPosition s)).
  { intros s. destruct recalculate;
      [|now apply (setMenuPosition_false_position env props b)].
    unfold setMenuPosition, setMenuPosition_with. rewrite Ha, Hc.
    destruct (inline props); [reflexivity|]. cbn [negb].
    destruct (inputRef env) as [e|]; [|reflexivity].
    destruct (if altPosition_truthy props then getOffsetAlt e else getOffset env e).
    cbn [andb]. destruct (autoPosition props).
    - rewrite (recalculatePosition_position env props b _ Ha Hc).
      now rewrite setPositioning_position.
    - now rewrite setPositioning_position. }
  split; [apply M|].
  split; [now apply (recalculatePosition_position env props b)|].
  split; [|now rewrite M].
  unfold setInitialPosition. destruct (inputRef env) as [e|]; [|reflexivity].
  destruct (if altPosition_truthy props then getOffsetAlt e else getOffset env e).
  now rewrite setPositioning_position.
Qed.

Lemma position_property_kept_witness :
  position (menuPosition
              (setMenuPosition lowMountedEnv leftProps true (teleportCenter usePosition)))
  = Some "fixed"%string.
Proof.
  apply (position_property_kept lowMountedEnv leftProps true false usePosition
           eq_refl eq_refl).
Defined.

(** *** The alternative offset *)

Definition elOffsetLeft (el : HTMLElement) : Q :=
  match el with mkEl _ oLeft _ _ _ _ => oLeft end.

Definition elScrollLeft (el : HTMLElement) : Q :=
  match el with mkEl _ _ _ sLeft _ _ => sLeft end.

Definition elScrollTop (el : HTMLElement) : Q :=
  match el with mkEl _ _ _ _ sTop _ => sTop end.

(** The element and its offset parents, innermost first. *)
Fixpoint offsetChain (el : HTMLElement) : list HTMLElement :=
  match el with
  | mkEl _ _ _ _ _ parent =>
      el :: match parent with
            | Some el' => offsetChain el'
            | None => []
            end
  end.

(** The last offset parent of the chain. *)
Fixpoint outermost (el : HTMLElement) : HTMLElement :=
  match el with
  | mkEl _ _ _ _ _ (Some el') => outermost el'
  | mkEl _ _ _ _ _ None => el
  end.

Lemma getOffsetAlt_loop_chain :
  forall (el : HTMLElement) (rect : DOMRect) (x y : Q),
    getOffsetAlt_loop rect el x y
    = (rectTop rect + elScrollTop (outermost el),
       fold_left (fun acc e => acc + (elOffsetLeft e - elScrollLeft e))
                 (offsetChain el) x).
Proof.
  fix IH 1.
  intros [r oL oT sL sT [parent|]] rect x y.
  - cbn [getOffsetAlt_loop outermost offsetChain fold_left elOffsetLeft elScrollLeft].
    apply IH.
  - reflexivity.
Qed.

(** X22.  [getOffsetAlt] adds up [offsetLeft - scrollLeft] over the element and
    all its offset parents for [left], but for [top] it takes the element's
    viewport top plus the [scrollTop] of the outermost offset parent alone:
    the scroll offsets of the element and of the parents in between play no
    part. *)
Theorem getOffsetAlt_chain (el : HTMLElement) :
  getOffsetAlt el
  = (rectTop (getBoundingClientRect el) + elScrollTop (outermost el),
     fold_left (fun acc e => acc + (elOffsetLeft e - elScrollLeft e))
               (offsetChain el) 0).
Proof. unfold getOffsetAlt. apply getOffsetAlt_loop_chain. Qed.

(** An element scrolled by 7 inside a parent scrolled by 11 inside a root
    scrolled by 13: only the 13 reaches [top]. *)
Example getOffsetAlt_nested :
  getOffsetAlt
    (mkEl (mkRect 40 100 200 30 240) 5 0 1 7
       (Some (mkEl (mkRect 0 0 0 0 0) 20 0 2 11
          (Some (mkEl (mkRect 0 0 0 0 0) 300 0 3 13 None)))))
  = (100 + 13, 0 + (5 - 1) + (20 - 2) + (300 - 3)).
Proof. reflexivity. Qed.


End PositionExtra.
